(** * SOTD (Stock of the Day): a shallow embedding of [App.py]

    The development follows the source file function by function:
    - [PyStr]: Python [str] values as sequences of Unicode code points;
    - [Float64]: Python [float] (IEEE 754 binary64) with the three
      arithmetic operations the source uses, [round(x, n)] and [repr];
    - the value and exception model, and the logging/exception monad;
    - [get_news_headlines], [get_stock_price_data], [analyze_single_stock],
      [build_analysis_prompt], [extract_stock_symbol] and the [/stock] route;
    - the properties of these functions. *)

From Stdlib Require Import ZArith NArith List String Ascii Bool Lia.
From Stdlib Require Import SpecFloat.
Import ListNotations.

Local Open Scope Z_scope.

(** ** Python strings *)

Module PyStr.

(** A Python [str] is a sequence of Unicode code points. *)
Definition char := N.
Definition pystr := list char.

(** String literals of the source are ASCII; [u "..."] is the literal. *)
Definition u (s : string) : pystr := map N_of_ascii (list_ascii_of_string s).

Definition char_eqb (a b : char) : bool := N.eqb a b.

Fixpoint eqb (a b : pystr) : bool :=
  match a, b with
  | [], [] => true
  | x :: a', y :: b' => char_eqb x y && eqb a' b'
  | _, _ => false
  end.

(** [sep.join(items)] on strings. *)
Fixpoint join (sep : pystr) (items : list pystr) : pystr :=
  match items with
  | [] => []
  | [x] => x
  | x :: rest => x ++ sep ++ join sep rest
  end.

(** [needle in haystack]. *)
Fixpoint prefixb (p s : pystr) : bool :=
  match p, s with
  | [], _ => true
  | x :: p', y :: s' => char_eqb x y && prefixb p' s'
  | _ :: _, [] => false
  end.

Fixpoint containsb (needle hay : pystr) : bool :=
  prefixb needle hay ||
  match hay with
  | [] => false
  | _ :: hay' => containsb needle hay'
  end.

(** The propositional reading of [in]: the needle is a contiguous slice. *)
Definition contains (needle hay : pystr) : Prop :=
  exists pre post, hay = pre ++ needle ++ post.

(** Decimal digits of a non-negative integer, most significant first. *)
Fixpoint digits_fuel (fuel : nat) (n : Z) (acc : pystr) : pystr :=
  match fuel with
  | O => acc
  | S fuel' =>
      let acc' := Z.to_N (48 + n mod 10) :: acc in
      if n <? 10 then acc' else digits_fuel fuel' (n / 10) acc'
  end.

Definition digits (n : Z) : pystr :=
  digits_fuel (S (Z.to_nat (Z.log2 n))) n [].

(** [str(n)] for a Python [int]. *)
Definition of_Z (n : Z) : pystr :=
  if n <? 0 then u "-" ++ digits (- n) else digits n.

End PyStr.

Import PyStr.

(** ** Python floats *)

Module Float64.

Definition prec : Z := 53.
Definition emax : Z := 1024.

Definition f64 := spec_float.

Definition zero : f64 := S754_zero false.

Definition f64_sub : f64 -> f64 -> f64 := SFsub prec emax.
Definition f64_mul : f64 -> f64 -> f64 := SFmul prec emax.
Definition f64_div : f64 -> f64 -> f64 := SFdiv prec emax.
Definition f64_eqb : f64 -> f64 -> bool := SFeqb.

Definition is_finite (x : f64) : bool :=
  match x with S754_zero _ | S754_finite _ _ _ => true | _ => false end.

(** The double nearest to an integer (ties to even); overflows to an
    infinity.  This is [float(n)] minus its [OverflowError]. *)
Definition of_Z (n : Z) : f64 := binary_normalize prec emax n 0 false.

(** The double nearest to the rational [num / den], [den > 0]: the
    division algorithm of IEEE 754 run on integer mantissas. *)
Definition of_ratio (num : Z) (den : positive) : f64 :=
  match num with
  | Z0 => S754_zero false
  | Zpos p => SFdiv prec emax (S754_finite false p 0) (S754_finite false den 0)
  | Zneg p => SFdiv prec emax (S754_finite true p 0) (S754_finite false den 0)
  end.

(** Structural equality of representations (used on canonical values). *)
Definition same (x y : f64) : bool :=
  match x, y with
  | S754_zero a, S754_zero b => Bool.eqb a b
  | S754_infinity a, S754_infinity b => Bool.eqb a b
  | S754_nan, S754_nan => true
  | S754_finite a m e, S754_finite b n f =>
      Bool.eqb a b && Pos.eqb m n && Z.eqb e f
  | _, _ => false
  end.

(** Nearest integer to [num / den] for [num >= 0], [den > 0], ties to
    even. *)
Definition round_half_even (num den : Z) : Z :=
  let q := num / den in
  let r := num mod den in
  match (2 * r ?= den) with
  | Lt => q
  | Gt => q + 1
  | Eq => if Z.even q then q else q + 1
  end.

(** The magnitude [m * 2^e] as a fraction. *)
Definition fraction (m : positive) (e : Z) : Z * Z :=
  match e with
  | Zneg p => (Zpos m, 2 ^ Zpos p)
  | _ => (Zpos m * 2 ^ e, 1)
  end.

(** [round(x, ndigits)] for a float [x] and [ndigits >= 0].  CPython
    converts [x] to the decimal string correctly rounded to [ndigits]
    places (ties on the exact binary value go to the even digit) and
    reads that string back as the nearest double.  Non-finite values
    and zeros are returned unchanged. *)
Definition py_round (x : f64) (ndigits : nat) : f64 :=
  match x with
  | S754_finite s m e =>
      let scale := 10 ^ Z.of_nat ndigits in
      let '(num, den) := fraction m e in
      match round_half_even (num * scale) den with
      | Zpos k =>
          SFdiv prec emax (S754_finite s k 0)
                (S754_finite false (Z.to_pos scale) 0)
      | _ => S754_zero s
      end
  | _ => x
  end.

(** *** [repr] of a float: the shortest decimal string that reads back
    as the same double. *)

(** Number of decimal digits of a positive integer. *)
Definition ndigits10 (n : Z) : Z := Z.of_nat (List.length (PyStr.digits n)).

(** For [0 < num < den]: the least [j >= 1] with [num * 10^j >= den]. *)
Fixpoint lead_zeros (fuel : nat) (num den : Z) (j : Z) : Z :=
  match fuel with
  | O => j
  | S fuel' =>
      if den <=? num * 10 then j else lead_zeros fuel' (num * 10) den (j + 1)
  end.

(** The decimal exponent [k] of a positive rational:
    [10^(k-1) <= num/den < 10^k]. *)
Definition decimal_exponent (num den : Z) : Z :=
  if den <=? num then ndigits10 (num / den)
  else 1 - lead_zeros (S (Z.to_nat (Z.log2 den))) num den 1.

(** [d * 10^p] as a double. *)
Definition of_decimal (s : bool) (d : Z) (p : Z) : f64 :=
  let v :=
    match p with
    | Zneg q => of_ratio d (Z.to_pos (10 ^ Zpos q))
    | _ => of_ratio (d * 10 ^ p) 1
    end in
  if s then SFopp v else v.

Fixpoint strip_zeros (fuel : nat) (d p : Z) : Z * Z :=
  match fuel with
  | O => (d, p)
  | S fuel' =>
      if (d mod 10 =? 0) && (0 <? d) then strip_zeros fuel' (d / 10) (p + 1)
      else (d, p)
  end.

(** Try the [n]-digit decimals around [x]: nearest first. *)
Definition candidates (num den k n : Z) : list (Z * Z) :=
  let p := k - n in
  let '(a, b) :=
    match p with
    | Zneg q => (num * 10 ^ Zpos q, den)
    | _ => (num, den * 10 ^ p)
    end in
  let near := round_half_even a b in
  let lo := a / b in
  let far := if near =? lo then lo + 1 else lo in
  [(near, p); (far, p)].

Definition round_trips (x : f64) (s : bool) (dp : Z * Z) : bool :=
  (0 <? fst dp) && same (of_decimal s (fst dp) (snd dp)) x.

Fixpoint shortest (fuel : nat) (x : f64) (s : bool) (num den k n : Z)
  : Z * Z :=
  match fuel with
  | O => (0, 0)
  | S fuel' =>
      match List.find (round_trips x s) (candidates num den k n) with
      | Some dp => strip_zeros 20 (fst dp) (snd dp)
      | None => shortest fuel' x s num den k (n + 1)
      end
  end.

(** Digits and decimal point position of [repr]: the value is
    [0.d1d2...dn * 10^decpt]. *)
Definition repr_digits (s : bool) (m : positive) (e : Z) : pystr * Z :=
  let x := binary_round prec emax s m e in
  let '(num, den) := fraction m e in
  let k := decimal_exponent num den in
  let '(d, p) := shortest 17 x s num den k 1 in
  let ds := PyStr.digits d in
  (ds, p + Z.of_nat (List.length ds)).

Definition zeros (n : Z) : pystr := List.repeat 48%N (Z.to_nat n).

(** The exponent of the scientific form: sign and at least two digits. *)
Definition exp_suffix (x : Z) : pystr :=
  let a := Z.abs x in
  u "e" ++ (if x <? 0 then u "-" else u "+")
    ++ (if a <? 10 then u "0" else []) ++ PyStr.digits a.

(** [repr(x)] (which is also [str(x)] and [format(x, "")]). *)
Definition repr (x : f64) : pystr :=
  match x with
  | S754_nan => u "nan"
  | S754_infinity s => if s then u "-inf" else u "inf"
  | S754_zero s => if s then u "-0.0" else u "0.0"
  | S754_finite s m e =>
      let '(ds, decpt) := repr_digits s m e in
      let n := Z.of_nat (List.length ds) in
      let body :=
        if (decpt <=? -4) || (16 <? decpt) then
          match ds with
          | [] => []
          | d1 :: [] => d1 :: exp_suffix (decpt - 1)
          | d1 :: rest => d1 :: u "." ++ rest ++ exp_suffix (decpt - 1)
          end
        else if decpt <=? 0 then
          u "0." ++ zeros (- decpt) ++ ds
        else if n <=? decpt then
          ds ++ zeros (decpt - n) ++ u ".0"
        else
          firstn (Z.to_nat decpt) ds ++ u "." ++ skipn (Z.to_nat decpt) ds in
      if s then u "-" ++ body else body
  end.

End Float64.

Import Float64.

(** ** Python values and exceptions *)

(** The scalar values a provider can hand over for a price field and that
    an f-string can format: [None], [bool], [int], [float] and [str]. *)
Inductive pyval :=
| PNone
| PBool (b : bool)
| PInt (n : Z)
| PFloat (x : f64)
| PStr (s : pystr).

(** A decoded JSON document (the result of [response.json()]). *)
#[warnings="-register-all"]
Inductive json :=
| JAtom (v : pyval)
| JList (items : list json)
| JDict (fields : list (pystr * json)).

(** The subclasses of [requests.RequestException] the news client meets. *)
Inductive request_error :=
| Timeout | ConnectionError | HTTPError | JSONDecodeError | OtherRequestError.

Inductive builtin_error :=
| TypeError | KeyError | AttributeError | ZeroDivisionError | OverflowError
| ValueError | IndexError.

(** Exceptions.  Every constructor is a subclass of [Exception]; what is
    only a [BaseException] (interrupts, interpreter exit) is not modelled.
    - [RequestError]: [requests.RequestException] and its subclasses;
    - [HTTPException]: what [flask.abort(code, description=...)] raises;
    - [BuiltinError]: raised by the interpreter itself (the texts are
      those of CPython 3.11);
    - [LibraryError]: any other exception of a library (for instance an
      [openai.APIError]), with its class name and its text. *)
Inductive exn :=
| RequestError (k : request_error) (msg : pystr)
| HTTPException (code : Z) (description : pystr)
| BuiltinError (c : builtin_error) (msg : pystr)
| LibraryError (name msg : pystr).

(** [isinstance(e, requests.RequestException)]. *)
Definition is_RequestException (e : exn) : bool :=
  match e with RequestError _ _ => true | _ => false end.

(** [isinstance(e, Exception)]. *)
Definition is_Exception (e : exn) : bool := true.

Definition http_status_name (code : Z) : pystr :=
  if code =? 500 then u "Internal Server Error"
  else if code =? 404 then u "Not Found"
  else if code =? 400 then u "Bad Request"
  else u "Unknown Error".

(** [str(e)], as the f-strings of the log calls format it. *)
Definition exn_str (e : exn) : pystr :=
  match e with
  | RequestError _ msg => msg
  | HTTPException code d =>
      PyStr.of_Z code ++ u " " ++ http_status_name code ++ u ": " ++ d
  | BuiltinError _ msg => msg
  | LibraryError _ msg => msg
  end.

(** *** Truth value, comparison with zero, formatting *)

(** [bool(v)]. *)
Definition truthy (v : pyval) : bool :=
  match v with
  | PNone => false
  | PBool b => b
  | PInt n => negb (n =? 0)
  | PFloat x => negb (f64_eqb x zero)
  | PStr s => match s with [] => false | _ => true end
  end.

(** [v != 0]. *)
Definition ne_zero (v : pyval) : bool :=
  match v with
  | PBool b => b
  | PInt n => negb (n =? 0)
  | PFloat x => negb (f64_eqb x zero)
  | PNone | PStr _ => true
  end.

(** [v is not None]. *)
Definition is_not_None (v : pyval) : bool :=
  match v with PNone => false | _ => true end.

(** [f"{v}"], that is [format(v, "")]. *)
Definition py_format (v : pyval) : pystr :=
  match v with
  | PNone => u "None"
  | PBool b => if b then u "True" else u "False"
  | PInt n => PyStr.of_Z n
  | PFloat x => Float64.repr x
  | PStr s => s
  end.

(** *** Arithmetic *)

Definition result (A : Type) := sum exn A.

Definition type_name (v : pyval) : pystr :=
  match v with
  | PNone => u "NoneType"
  | PBool _ => u "bool"
  | PInt _ => u "int"
  | PFloat _ => u "float"
  | PStr _ => u "str"
  end.

Definition unsupported (op : string) (a b : pyval) : exn :=
  BuiltinError TypeError
    (u "unsupported operand type(s) for " ++ u op ++ u ": '" ++ type_name a
       ++ u "' and '" ++ type_name b ++ u "'").

(** The numeric operands: [bool] is a subclass of [int]. *)
Inductive number := NInt (n : Z) | NFloat (x : f64).

Definition as_number (v : pyval) : option number :=
  match v with
  | PBool b => Some (NInt (if b then 1 else 0))
  | PInt n => Some (NInt n)
  | PFloat x => Some (NFloat x)
  | PNone | PStr _ => None
  end.

(** [float(n)] for an [int] operand of a mixed operation. *)
Definition int_to_float (n : Z) : result f64 :=
  let x := Float64.of_Z n in
  if is_finite x then inr x
  else inl (BuiltinError OverflowError (u "int too large to convert to float")).

(** [a - b]. *)
Definition py_sub (a b : pyval) : result pyval :=
  match as_number a, as_number b with
  | Some (NInt m), Some (NInt n) => inr (PInt (m - n))
  | Some (NFloat x), Some (NFloat y) => inr (PFloat (f64_sub x y))
  | Some (NInt m), Some (NFloat y) =>
      match int_to_float m with
      | inr x => inr (PFloat (f64_sub x y))
      | inl e => inl e
      end
  | Some (NFloat x), Some (NInt n) =>
      match int_to_float n with
      | inr y => inr (PFloat (f64_sub x y))
      | inl e => inl e
      end
  | _, _ => inl (unsupported "-" a b)
  end.

Definition float_truediv (x y : f64) : result pyval :=
  if f64_eqb y zero
  then inl (BuiltinError ZeroDivisionError (u "float division by zero"))
  else inr (PFloat (f64_div x y)).

(** [a / b] (true division).  For two [int]s CPython rounds the
    magnitude of the quotient and negates it when the signs differ, the
    sign of [0] being positive: [0 / -1] is [-0.0]. *)
Definition py_truediv (a b : pyval) : result pyval :=
  match as_number a, as_number b with
  | Some (NInt m), Some (NInt n) =>
      match n with
      | Z0 => inl (BuiltinError ZeroDivisionError (u "division by zero"))
      | Zpos d =>
          let q := of_ratio m d in
          if is_finite q then inr (PFloat q)
          else inl (BuiltinError OverflowError
                      (u "integer division result too large for a float"))
      | Zneg d =>
          let q := SFopp (of_ratio m d) in
          if is_finite q then inr (PFloat q)
          else inl (BuiltinError OverflowError
                      (u "integer division result too large for a float"))
      end
  | Some (NFloat x), Some (NFloat y) => float_truediv x y
  | Some (NInt m), Some (NFloat y) =>
      match int_to_float m with
      | inr x => float_truediv x y
      | inl e => inl e
      end
  | Some (NFloat x), Some (NInt n) =>
      match int_to_float n with
      | inr y => float_truediv x y
      | inl e => inl e
      end
  | _, _ => inl (unsupported "/" a b)
  end.

Definition as_int (v : pyval) : option Z :=
  match v with
  | PBool b => Some (if b then 1 else 0)
  | PInt n => Some n
  | _ => None
  end.

(** [s * n] for a string: [n] copies, none for [n <= 0]. *)
Definition str_repeat (s : pystr) (n : pyval) : result pyval :=
  match as_int n with
  | Some k => inr (PStr (List.concat (List.repeat s (Z.to_nat k))))
  | None =>
      inl (BuiltinError TypeError
             (u "can't multiply sequence by non-int of type '" ++ type_name n
                ++ u "'"))
  end.

(** [a * b].  (The source only multiplies the quotient of a true division,
    which is a float.) *)
Definition py_mul (a b : pyval) : result pyval :=
  match a, b with
  | PStr s, _ => str_repeat s b
  | _, PStr s => str_repeat s a
  | _, _ =>
      match as_number a, as_number b with
      | Some (NInt m), Some (NInt n) => inr (PInt (m * n))
      | Some (NFloat x), Some (NFloat y) => inr (PFloat (f64_mul x y))
      | Some (NInt m), Some (NFloat y) =>
          match int_to_float m with
          | inr x => inr (PFloat (f64_mul x y))
          | inl e => inl e
          end
      | Some (NFloat x), Some (NInt n) =>
          match int_to_float n with
          | inr y => inr (PFloat (f64_mul x y))
          | inl e => inl e
          end
      | _, _ => inl (unsupported "*" a b)
      end
  end.

(** [round(v, ndigits)] with [ndigits >= 0]: an [int] is its own rounding. *)
Definition py_round_val (v : pyval) (ndigits : nat) : result pyval :=
  match v with
  | PFloat x => inr (PFloat (py_round x ndigits))
  | PInt n => inr (PInt n)
  | PBool b => inr (PInt (if b then 1 else 0))
  | PNone | PStr _ =>
      inl (BuiltinError TypeError
             (u "type " ++ type_name v ++ u " doesn't define __round__ method"))
  end.

(** *** Operations on decoded JSON *)

Definition json_type_name (v : json) : pystr :=
  match v with
  | JAtom a => type_name a
  | JList _ => u "list"
  | JDict _ => u "dict"
  end.

(** Dictionary lookup by string key. *)
Fixpoint lookup {A : Type} (key : pystr) (fields : list (pystr * A)) : option A :=
  match fields with
  | [] => None
  | (k, v) :: rest => if PyStr.eqb k key then Some v else lookup key rest
  end.

(** [data.get(key, default)]: only a [dict] has the method. *)
Definition json_get (data : json) (key : pystr) (default : json) : result json :=
  match data with
  | JDict fields =>
      match lookup key fields with
      | Some v => inr v
      | None => inr default
      end
  | _ =>
      inl (BuiltinError AttributeError
             (u "'" ++ json_type_name data ++ u "' object has no attribute 'get'"))
  end.

(** [xs[:n]] on a sequence: the first [n] items, or all but the last [-n]
    for a negative [n]. *)
Definition slice_to {A : Type} (xs : list A) (n : Z) : list A :=
  if n <? 0 then firstn (List.length xs - Z.to_nat (- n)) xs
  else firstn (Z.to_nat n) xs.

(** [v[:n]]: lists and strings can be sliced; a [dict] rejects the slice
    as a key (a [TypeError] up to Python 3.11, a [KeyError] from 3.12, where
    slices hash), the other values are not subscriptable. *)
Definition json_slice_to (v : json) (n : Z) : result json :=
  match v with
  | JList items => inr (JList (slice_to items n))
  | JAtom (PStr s) => inr (JAtom (PStr (slice_to s n)))
  | JDict _ => inl (BuiltinError TypeError (u "unhashable type: 'slice'"))
  | JAtom _ =>
      inl (BuiltinError TypeError
             (u "'" ++ json_type_name v ++ u "' object is not subscriptable"))
  end.

(** The items a [for] loop draws from a value. *)
Definition json_iter (v : json) : result (list json) :=
  match v with
  | JList items => inr items
  | JAtom (PStr s) => inr (map (fun c => JAtom (PStr [c])) s)
  | JDict fields => inr (map (fun kv => JAtom (PStr (fst kv))) fields)
  | JAtom _ =>
      inl (BuiltinError TypeError
             (u "'" ++ json_type_name v ++ u "' object is not iterable"))
  end.

(** [v[key]] for a string key. *)
Definition json_getitem (v : json) (key : pystr) : result json :=
  match v with
  | JDict fields =>
      match lookup key fields with
      | Some x => inr x
      | None => inl (BuiltinError KeyError (u "'" ++ key ++ u "'"))
      end
  | JList _ =>
      inl (BuiltinError TypeError
             (u "list indices must be integers or slices, not str"))
  | JAtom (PStr _) =>
      inl (BuiltinError TypeError
             (u "string indices must be integers, not 'str'"))
  | JAtom _ =>
      inl (BuiltinError TypeError
             (u "'" ++ json_type_name v ++ u "' object is not subscriptable"))
  end.

(** A list comprehension whose element expression can raise: the items are
    evaluated from left to right and the first exception ends it. *)
Fixpoint comprehension {A B : Type} (f : A -> result B) (xs : list A)
  : result (list B) :=
  match xs with
  | [] => inr []
  | x :: rest =>
      match f x with
      | inl e => inl e
      | inr y =>
          match comprehension f rest with
          | inl e => inl e
          | inr ys => inr (y :: ys)
          end
      end
  end.

(** [sep.join(items)]: every item must be a [str]. *)
Fixpoint join_items (i : Z) (items : list json) : result (list pystr) :=
  match items with
  | [] => inr []
  | JAtom (PStr s) :: rest =>
      match join_items (i + 1) rest with
      | inl e => inl e
      | inr ss => inr (s :: ss)
      end
  | v :: _ =>
      inl (BuiltinError TypeError
             (u "sequence item " ++ PyStr.of_Z i ++ u ": expected str instance, "
                ++ json_type_name v ++ u " found"))
  end.

Definition py_join (sep : pystr) (items : list json) : result pystr :=
  match join_items 0 items with
  | inl e => inl e
  | inr ss => inr (PyStr.join sep ss)
  end.

(** ** Logging and exceptions: the monad of the program *)

Inductive log_level := INFO | ERROR.

Record log_record := LogRecord { level : log_level; message : pystr }.

(** A computation reads the log written so far and returns a value or a
    raised exception, with the log extended by what it wrote. *)
Definition M (A : Type) : Type := list log_record -> result A * list log_record.

Definition ret {A : Type} (a : A) : M A := fun l => (inr a, l).

Definition raise {A : Type} (e : exn) : M A := fun l => (inl e, l).

Definition bind {A B : Type} (m : M A) (k : A -> M B) : M B :=
  fun l =>
    match m l with
    | (inr a, l') => k a l'
    | (inl e, l') => (inl e, l')
    end.

(** A pure step that may raise. *)
Definition lift {A : Type} (r : result A) : M A := fun l => (r, l).

Definition logger_info (msg : pystr) : M unit :=
  fun l => (inr tt, l ++ [LogRecord INFO msg]).

Definition logger_error (msg : pystr) : M unit :=
  fun l => (inr tt, l ++ [LogRecord ERROR msg]).

(** [try: body except C as e: handler e], where [catches] is
    [isinstance(e, C)]. *)
Definition try_except {A : Type} (body : M A) (catches : exn -> bool)
  (handler : exn -> M A) : M A :=
  fun l =>
    match body l with
    | (inl e, l') => if catches e then handler e l' else (inl e, l')
    | (inr a, l') => (inr a, l')
    end.

(** [flask.abort(code, description=...)]. *)
Definition abort {A : Type} (code : Z) (description : pystr) : M A :=
  raise (HTTPException code description).

Declare Scope py_scope.
Delimit Scope py_scope with py.
Notation "x <- m ;; k" := (bind m (fun x => k))
  (at level 61, m at next level, right associativity) : py_scope.
Notation "m ;; k" := (bind m (fun _ => k))
  (at level 61, right associativity) : py_scope.
Local Open Scope py_scope.

(** The same sequencing for pure steps. *)
Definition rbind {A B : Type} (r : result A) (k : A -> result B) : result B :=
  match r with
  | inl e => inl e
  | inr a => k a
  end.

(** Run a computation from an empty log. *)
Definition run {A : Type} (m : M A) : result A * list log_record := m [].

(** ** The outside world *)

(** What the source reads of a [requests.Response]. *)
Record Response := {
  status_code : Z;
  reason : pystr;
  url : pystr;
  (** [response.json()]: the decoded body, or the text of the decoding
      error.  Since requests 2.27 that error is a
      [requests.exceptions.JSONDecodeError], a [RequestException]. *)
  decoded : pystr + json
}.

(** The process configuration, the three providers and the template
    engine.  Each call either raises or returns. *)
Record World := {
  NEWSAPI_KEY : pystr;
  OPENAI_API_KEY : pystr;
  (** [requests.get(url, params=..., timeout=...)]. *)
  requests_get : pystr -> list (pystr * pystr) -> Z -> result Response;
  (** [yf.Ticker(ticker).info]: a dictionary of scalar values. *)
  yf_Ticker_info : pystr -> result (list (pystr * pyval));
  (** [client.chat.completions.create(model=..., messages=...,
      max_tokens=...)] followed by [.choices[0].message.content]. *)
  chat_completion :
    pystr -> pystr -> list (pystr * pystr) -> Z -> result (option pystr);
  (** The exception [render_template(name, ai_pick=...)] raises, if any:
      a template that is missing or does not render. *)
  render_error : pystr -> pystr -> option exn
}.

Definition NEWS_API_BASE_URL : pystr := u "https://newsapi.org/v2/everything".
Definition OPENAI_MODEL : pystr := u "gpt-4o-mini".

(** [response.raise_for_status()]. *)
Definition raise_for_status (r : Response) : result unit :=
  let c := status_code r in
  if (400 <=? c) && (c <? 500) then
    inl (RequestError HTTPError
           (PyStr.of_Z c ++ u " Client Error: " ++ reason r ++ u " for url: "
              ++ url r))
  else if (500 <=? c) && (c <? 600) then
    inl (RequestError HTTPError
           (PyStr.of_Z c ++ u " Server Error: " ++ reason r ++ u " for url: "
              ++ url r))
  else inr tt.

(** [response.json()]. *)
Definition response_json (r : Response) : result json :=
  match decoded r with
  | inl msg => inl (RequestError JSONDecodeError msg)
  | inr doc => inr doc
  end.

(** ** News client *)

(** The query parameters and the call [requests.get(NEWS_API_BASE_URL,
    params=params, timeout=10)]. *)
Definition news_params (w : World) (ticker : pystr) : list (pystr * pystr) :=
  [(u "q", ticker); (u "sortBy", u "publishedAt"); (u "apiKey", NEWSAPI_KEY w)].

Definition news_request (w : World) (ticker : pystr) : result Response :=
  requests_get w NEWS_API_BASE_URL (news_params w ticker) 10.

Definition get_news_headlines (w : World) (ticker : pystr) (max_articles : Z)
  : M (list json) :=
  try_except
    (response <- lift (news_request w ticker) ;;
     lift (raise_for_status response) ;;
     data <- lift (response_json response) ;;
     articles <- lift (rbind (json_get data (u "articles") (JList []))
                         (fun all => json_slice_to all max_articles)) ;;
     lift (rbind (json_iter articles)
             (comprehension (fun article => json_getitem article (u "title")))))
    is_RequestException
    (fun e =>
       logger_error (u "Failed to fetch news for " ++ ticker ++ u ": "
                       ++ exn_str e) ;;
       ret []).

(** What the [try] block of [get_news_headlines] computes once the
    response is there. *)
Definition titles_of_response (r : Response) (max_articles : Z)
  : result (list json) :=
  rbind (raise_for_status r) (fun _ =>
  rbind (response_json r) (fun data =>
  rbind (json_get data (u "articles") (JList [])) (fun all =>
  rbind (json_slice_to all max_articles) (fun articles =>
  rbind (json_iter articles)
    (comprehension (fun article => json_getitem article (u "title"))))))).

Definition news_failure_log (ticker : pystr) (e : exn) : log_record :=
  LogRecord ERROR (u "Failed to fetch news for " ++ ticker ++ u ": " ++ exn_str e).

(** The default of the [max_articles] parameter. *)
Definition default_max_articles : Z := 3.

(** ** Market data client *)

Record price_data := {
  pd_price : pyval;
  pd_change_percentage : pyval
}.

(** [info.get(key)]: the value, or [None] when the key is absent. *)
Definition info_get (info : list (pystr * pyval)) (key : pystr) : pyval :=
  match lookup key info with
  | Some v => v
  | None => PNone
  end.

(** [round((current_price - previous_close) / previous_close * 100, 2)]. *)
Definition change_formula (current_price previous_close : pyval) : result pyval :=
  rbind (py_sub current_price previous_close) (fun d =>
  rbind (py_truediv d previous_close) (fun q =>
  rbind (py_mul q (PInt 100)) (fun p =>
  py_round_val p 2))).

Definition get_stock_price_data (w : World) (ticker : pystr) : M price_data :=
  try_except
    (info <- lift (yf_Ticker_info w ticker) ;;
     let current_price := info_get info (u "regularMarketPrice") in
     let previous_close := info_get info (u "regularMarketPreviousClose") in
     change_percentage <-
       (if truthy current_price && truthy previous_close
           && ne_zero previous_close
        then lift (change_formula current_price previous_close)
        else ret PNone) ;;
     ret {| pd_price := current_price;
            pd_change_percentage := change_percentage |})
    is_Exception
    (fun e =>
       logger_error (u "Failed to fetch stock data for " ++ ticker ++ u ": "
                       ++ exn_str e) ;;
       ret {| pd_price := PNone; pd_change_percentage := PNone |}).

(** The fallback value and the log entry of the handler. *)
Definition no_price_data : price_data :=
  {| pd_price := PNone; pd_change_percentage := PNone |}.

Definition stock_failure_log (ticker : pystr) (e : exn) : log_record :=
  LogRecord ERROR
    (u "Failed to fetch stock data for " ++ ticker ++ u ": " ++ exn_str e).

(** ** Language-model calls *)

Definition discovery_messages : list (pystr * pystr) :=
  [(u "system",
    u "You are a top stock analyst specializing in small-cap stocks. "
      ++ u "Your job is to identify the single most promising small-cap stock "
      ++ u "(market cap under $2B) that shows the highest potential for significant growth.");
   (u "user",
    u "Based on current market conditions, identify the ONE most promising small-cap stock "
      ++ u "that you believe has the highest potential for growth in the near term. "
      ++ u "Provide: 1) Stock symbol, 2) Company name, 3) Detailed reasoning why this is "
      ++ u "your top pick. Focus on stocks with strong fundamentals, recent positive "
      ++ u "developments, or emerging trends. Be specific and thorough in your analysis.")].

(** The discovery call and what it returns: [create(...)] with 1000
    tokens at most, then [response.choices[0].message.content]. *)
Definition discovery_call (w : World) : result (option pystr) :=
  chat_completion w (OPENAI_API_KEY w) OPENAI_MODEL discovery_messages 1000.

Definition get_ai_stock_discovery (w : World) : M (option pystr) :=
  try_except
    (lift (discovery_call w))
    is_Exception
    (fun e =>
       logger_error (u "Failed to get AI stock discovery: " ++ exn_str e) ;;
       raise e).

Definition recommendation_messages (prompt : pystr) : list (pystr * pystr) :=
  [(u "system", u "You are a helpful stock analyst.");
   (u "user", prompt)].

(** The analysis call, capped at 500 tokens. *)
Definition analysis_call (w : World) (prompt : pystr) : result (option pystr) :=
  chat_completion w (OPENAI_API_KEY w) OPENAI_MODEL
    (recommendation_messages prompt) 500.

Definition get_ai_recommendation (w : World) (prompt : pystr) : M (option pystr) :=
  try_except
    (lift (analysis_call w prompt))
    is_Exception
    (fun e =>
       logger_error (u "Failed to get AI recommendation: " ++ exn_str e) ;;
       raise e).

(** ** Snapshot of one stock *)

Record stock_data := {
  symbol : pystr;
  price : pyval;
  change_percentage : pyval;
  news : list json
}.

Definition analyze_single_stock (w : World) (stock_symbol : pystr)
  : M (option stock_data) :=
  try_except
    (price_data <- get_stock_price_data w stock_symbol ;;
     news_headlines <- get_news_headlines w stock_symbol default_max_articles ;;
     ret (Some {| symbol := stock_symbol;
                  price := pd_price price_data;
                  change_percentage := pd_change_percentage price_data;
                  news := news_headlines |}))
    is_Exception
    (fun e =>
       logger_error (u "Failed to analyze stock " ++ stock_symbol ++ u ": "
                       ++ exn_str e) ;;
       ret None).

(** ** Analysis prompt *)

Definition nl : pystr := [10%N].

Definition price_str (d : stock_data) : pystr :=
  if truthy (price d) then u "$" ++ py_format (price d) else u "N/A".

Definition change_str (d : stock_data) : pystr :=
  if is_not_None (change_percentage d)
  then py_format (change_percentage d) ++ u "%"
  else u "N/A".

Definition news_str (d : stock_data) : result pystr :=
  match news d with
  | [] => inr (u "No recent news")
  | items => py_join (u "; ") items
  end.

Definition prompt_text (d : stock_data) (news_s : pystr) : pystr :=
  u "You are a top stock analyst. Based on the following discovered small-cap stock with its "
  ++ u "current price, daily change, and recent news headlines, provide a detailed analysis "
  ++ u "of this stock's potential for significant growth:" ++ nl ++ nl
  ++ u "Stock: " ++ symbol d ++ nl
  ++ u "Current Price: " ++ price_str d ++ nl
  ++ u "Daily Change: " ++ change_str d ++ nl
  ++ u "Recent News: " ++ news_s ++ nl ++ nl
  ++ u "Provide a comprehensive analysis including:" ++ nl
  ++ u "1. Why this stock shows promise" ++ nl
  ++ u "2. Key factors driving its potential" ++ nl
  ++ u "3. Risk considerations" ++ nl
  ++ u "4. Your overall recommendation".

Definition build_analysis_prompt (d : stock_data) : result pystr :=
  rbind (news_str d) (fun news_s => inr (prompt_text d news_s)).

(** ** Symbol extractor *)

(** A snapshot's headlines when they are strings, and how the prompt
    shows them. *)
Definition headline_items (headlines : list pystr) : list json :=
  map (fun h => JAtom (PStr h)) headlines.

Definition headlines_text (headlines : list pystr) : pystr :=
  match headlines with
  | [] => u "No recent news"
  | _ => PyStr.join (u "; ") headlines
  end.

(** ** Vocabulary of the properties *)

(** The failures of the news fetch that [requests] reports as a
    [RequestException]: the transport fails (timeout, connection error),
    the status is a 4xx or 5xx, or the body is not JSON. *)
Inductive fetch_failure (w : World) (ticker : pystr) : exn -> Prop :=
| transport_failure (k : request_error) (msg : pystr) :
    news_request w ticker = inl (RequestError k msg) ->
    fetch_failure w ticker (RequestError k msg)
| error_status (r : Response) (e : exn) :
    news_request w ticker = inr r ->
    400 <= status_code r < 600 ->
    raise_for_status r = inl e ->
    fetch_failure w ticker e
| undecodable_body (r : Response) (msg : pystr) :
    news_request w ticker = inr r ->
    raise_for_status r = inr tt ->
    decoded r = inl msg ->
    fetch_failure w ticker (RequestError JSONDecodeError msg).

(** The title of an article, when the article is an object that has one. *)
Definition title_of (article : json) : option json :=
  match article with
  | JDict fields => lookup (u "title") fields
  | _ => None
  end.

(** The errors of the market-data fetch: the provider call raises, or the
    values it returns make the arithmetic raise. *)
Inductive provider_error (w : World) (ticker : pystr) : exn -> Prop :=
| provider_raises (e : exn) :
    yf_Ticker_info w ticker = inl e ->
    provider_error w ticker e
| malformed_values (info : list (pystr * pyval)) (e : exn) :
    yf_Ticker_info w ticker = inr info ->
    truthy (info_get info (u "regularMarketPrice")) = true ->
    truthy (info_get info (u "regularMarketPreviousClose")) = true ->
    change_formula (info_get info (u "regularMarketPrice"))
      (info_get info (u "regularMarketPreviousClose")) = inl e ->
    provider_error w ticker e.

(** The double a decimal literal [d * 10^p] denotes ([12.5] is
    [literal 125 (-1)]). *)
Definition literal (d p : Z) : f64 := of_decimal (d <? 0) (Z.abs d) p.

(** The stage tags of the specification. *)
Inductive stage := Discovery | Extraction | AnalysisData | Analysis.

(** *** Example providers *)

Definition world_of (get : pystr -> list (pystr * pystr) -> Z -> result Response)
  (info : pystr -> result (list (pystr * pyval)))
  (chat : pystr -> pystr -> list (pystr * pystr) -> Z -> result (option pystr))
  : World :=
  {| NEWSAPI_KEY := u "news-key";
     OPENAI_API_KEY := u "openai-key";
     requests_get := get;
     yf_Ticker_info := info;
     chat_completion := chat;
     render_error := fun _ _ => None |}.

Definition ok_response (doc : json) : Response :=
  {| status_code := 200;
     reason := u "OK";
     url := NEWS_API_BASE_URL;
     decoded := inr doc |}.

Definition article (title : string) : json :=
  JDict [(u "title", JAtom (PStr (u title)));
         (u "description", JAtom (PStr (u "...")))].

Definition news_of (titles : list string) : json :=
  JDict [(u "status", JAtom (PStr (u "ok")));
         (u "articles", JList (map article titles))].

Definition quote_of (current previous : pyval) : list (pystr * pyval) :=
  [(u "symbol", PStr (u "GRPH"));
   (u "regularMarketPrice", current);
   (u "regularMarketPreviousClose", previous)].

(** The language model: the discovery call is the one capped at 1000
    tokens. *)
Definition chat_of (discovery analysis : result (option pystr))
  : pystr -> pystr -> list (pystr * pystr) -> Z -> result (option pystr) :=
  fun _ _ _ max_tokens => if max_tokens =? 1000 then discovery else analysis.

(** The end-to-end example of the specification. *)
Definition graphex_world : World :=
  world_of
    (fun _ _ _ => inr (ok_response (news_of ["Graphex wins contract"]%string)))
    (fun _ => inr (quote_of (PFloat (literal 125 (-1))) (PInt 10)))
    (chat_of (inr (Some (u "...GRPH (Graphex Inc)...")))
             (inr (Some (u "Strong buy.")))).

Definition graphex_snapshot : stock_data :=
  {| symbol := u "GRPH";
     price := PFloat (literal 125 (-1));
     change_percentage := PFloat (literal 250 (-1));
     news := [JAtom (PStr (u "Graphex wins contract"))] |}.

(** The news provider times out. *)
Definition timeout_world : World :=
  world_of
    (fun _ _ _ => inl (RequestError Timeout (u "Read timed out.")))
    (fun _ => inr (quote_of (PInt 100) (PInt 90)))
    (chat_of (inr (Some (u "Our top pick is NVDA, a strong buy")))
             (inr (Some (u "Strong buy.")))).

(** The news provider answers 200 with an article that has no title. *)
Definition untitled_world : World :=
  world_of
    (fun _ _ _ =>
       inr (ok_response
              (JDict [(u "articles",
                       JList [JDict [(u "description",
                                      JAtom (PStr (u "Graphex wins contract")))]])])))
    (fun _ => inr (quote_of (PInt 100) (PInt 90)))
    (chat_of (inr (Some (u "Our top pick is NVDA, a strong buy")))
             (inr (Some (u "Strong buy.")))).

(** The news provider answers 200 with an object without [articles]. *)
Definition no_articles_world : World :=
  world_of
    (fun _ _ _ =>
       inr (ok_response (JDict [(u "status", JAtom (PStr (u "ok")))])))
    (fun _ => inr (quote_of (PInt 100) (PInt 90)))
    (chat_of (inr (Some (u "Our top pick is NVDA, a strong buy")))
             (inr (Some (u "Strong buy.")))).

(** The news provider answers with four articles. *)
Definition four_articles_world : World :=
  world_of
    (fun _ _ _ =>
       inr (ok_response (news_of ["first"; "second"; "third"; "fourth"]%string)))
    (fun _ => inr (quote_of (PInt 100) (PInt 90)))
    (chat_of (inr (Some (u "Our top pick is NVDA, a strong buy")))
             (inr (Some (u "Strong buy.")))).

(** The market-data provider quotes a price of zero. *)
Definition zero_price_world : World :=
  world_of
    (fun _ _ _ => inr (ok_response (news_of [])))
    (fun _ => inr (quote_of (PInt 0) (PInt 90)))
    (chat_of (inr (Some (u "Our top pick is NVDA, a strong buy")))
             (inr (Some (u "Strong buy.")))).

(** The market-data provider raises. *)
Definition no_quote_world : World :=
  world_of
    (fun _ _ _ => inr (ok_response (news_of [])))
    (fun _ => inl (LibraryError (u "YFRateLimitError") (u "Too Many Requests.")))
    (chat_of (inr (Some (u "Our top pick is NVDA, a strong buy")))
             (inr (Some (u "Strong buy.")))).

(** The discovery call of the language model raises. *)
Definition discovery_down_world : World :=
  world_of
    (fun _ _ _ => inr (ok_response (news_of [])))
    (fun _ => inr (quote_of (PInt 100) (PInt 90)))
    (chat_of (inl (LibraryError (u "APIConnectionError") (u "Connection error.")))
             (inr (Some (u "Strong buy.")))).

(** The discovery text holds no symbol. *)
Definition no_symbol_world : World :=
  world_of
    (fun _ _ _ => inr (ok_response (news_of [])))
    (fun _ => inr (quote_of (PInt 100) (PInt 90)))
    (chat_of (inr (Some (u "THE AND FOR ARE")))
             (inr (Some (u "Strong buy.")))).

(** The analysis call of the language model raises. *)
Definition analysis_down_world : World :=
  world_of
    (fun _ _ _ => inr (ok_response (news_of [])))
    (fun _ => inr (quote_of (PInt 100) (PInt 90)))
    (chat_of (inr (Some (u "Our top pick is NVDA, a strong buy")))
             (inl (LibraryError (u "RateLimitError") (u "Rate limit reached.")))).

(** A Unicode database for the examples: no word character beyond ASCII. *)
Definition ascii_only : char -> bool := fun _ => false.

Definition in_range (lo hi c : char) : bool := ((lo <=? c) && (c <=? hi))%N.

Arguments in_range (lo hi c)%_N.

(** The pieces a pattern of this program is made of: [\b], and a greedy
    bounded repetition of a character range, [[lo-hi]{min,max}]. *)
Inductive regex_item :=
| WordBoundary
| ClassRepeat (lo hi : char) (min max : nat).

Arguments ClassRepeat (lo hi)%_N (min max)%_nat.

Definition regex := list regex_item.

(** A rendered page: the template and its context. *)
Record page := {
  template : pystr;
  ai_pick : pystr
}.

(** [render_template(name, ai_pick=...)]. *)
Definition render_template (w : World) (name ai_pick : pystr) : result page :=
  match render_error w name ai_pick with
  | Some e => inl e
  | None => inr {| template := name; ai_pick := ai_pick |}
  end.

(** A position in the subject is the character before it (none at the
    start) and the text from it on. *)

(** The character before the position reached after [k] more characters. *)
Definition prev_after (prev : option char) (rest : pystr) (k : nat)
  : option char :=
  match k with
  | O => prev
  | S k' => match nth_error rest k' with Some c => Some c | None => prev end
  end.

(** Length of the longest prefix made of characters of the class, at
    most [max]. *)
Fixpoint class_run (lo hi : char) (max : nat) (rest : pystr) : nat :=
  match max, rest with
  | S max', c :: rest' =>
      if in_range lo hi c then S (class_run lo hi max' rest') else O
  | _, _ => O
  end.

Arguments class_run (lo hi)%_N max%_nat rest.

(** ** Further vocabulary *)

(** The character before the end of [pre], for a text that goes on after
    the character [prev] (none at the start of the text). *)
Fixpoint last_char (prev : option char) (pre : pystr) : option char :=
  match pre with
  | [] => prev
  | c :: pre' => last_char (Some c) pre'
  end.

(** The news provider answers 200 with a JSON array. *)
Definition array_body_world : World :=
  world_of
    (fun _ _ _ => inr (ok_response (JList [article "Graphex wins contract"])))
    (fun _ => inr (quote_of (PInt 100) (PInt 90)))
    (chat_of (inr (Some (u "Our top pick is NVDA, a strong buy")))
             (inr (Some (u "Strong buy.")))).

(** The market-data provider quotes a price given as text. *)
Definition text_price_world : World :=
  world_of
    (fun _ _ _ => inr (ok_response (news_of [])))
    (fun _ => inr (quote_of (PStr (u "12.5")) (PInt 10)))
    (chat_of (inr (Some (u "Our top pick is NVDA, a strong buy")))
             (inr (Some (u "Strong buy.")))).

(** A negative quote that has not moved since the previous close. *)
Definition negative_flat_world : World :=
  world_of
    (fun _ _ _ => inr (ok_response (news_of [])))
    (fun _ => inr (quote_of (PInt (-1)) (PInt (-1))))
    (chat_of (inr (Some (u "Our top pick is NVDA, a strong buy")))
             (inr (Some (u "Strong buy.")))).

(** The price has not moved since the previous close. *)
Definition flat_price_world : World :=
  world_of
    (fun _ _ _ => inr (ok_response (news_of [])))
    (fun _ => inr (quote_of (PFloat (literal 125 (-1))) (PFloat (literal 125 (-1)))))
    (chat_of (inr (Some (u "Our top pick is NVDA, a strong buy")))
             (inr (Some (u "Strong buy.")))).

(** A number as a value. *)
Definition number_val (d : number) : pyval :=
  match d with
  | NInt n => PInt n
  | NFloat x => PFloat x
  end.

(** [v < 0] for a number. *)
Definition negative (v : pyval) : bool :=
  match v with
  | PInt n => n <? 0
  | PFloat (S754_finite s _ _) | PFloat (S754_infinity s) => s
  | _ => false
  end.

(** The exception is a [TypeError] or an [OverflowError]. *)
Definition type_or_overflow (e : exn) : Prop :=
  exists msg,
    e = BuiltinError TypeError msg \/ e = BuiltinError OverflowError msg.

(** [isinstance(v, str)] for an item of the headline list. *)
Definition is_str_item (v : json) : bool :=
  match v with
  | JAtom (PStr _) => true
  | _ => false
  end.

(** The news client raises [e] to its caller: the [try] block raises it
    and it is no [RequestException]. *)
Definition news_raises (w : World) (ticker : pystr) (e : exn) : Prop :=
  rbind (news_request w ticker)
    (fun r => titles_of_response r default_max_articles) = inl e
  /\ is_RequestException e = false.

(** The two records a run logs before it fetches data. *)
Definition discovering : log_record :=
  LogRecord INFO (u "Discovering promising stocks...").

Definition discovered (stock_symbol : pystr) : log_record :=
  LogRecord INFO (u "Discovered stock: " ++ stock_symbol).

(** The log [l'] is the log [l] with records added at its end. *)
Definition extends (l l' : list log_record) : Prop :=
  exists added, l' = l ++ added.

(** ** Process configuration

    The module reads its two keys from the environment when it is loaded
    and raises a [ValueError] when one is missing or empty. *)
Record configuration := {
  config_NEWSAPI_KEY : pystr;
  config_OPENAI_API_KEY : pystr
}.

(** [not v] for the result of [os.getenv]. *)
Definition unset (v : option pystr) : bool :=
  match v with
  | None | Some [] => true
  | Some _ => false
  end.

Definition load_configuration (getenv : pystr -> option pystr)
  : result configuration :=
  let news_key := getenv (u "NEWSAPI_KEY") in
  let openai_key := getenv (u "OPENAI_API_KEY") in
  if unset news_key then
    inl (BuiltinError ValueError
           (u "NEWSAPI_KEY environment variable is required"))
  else if unset openai_key then
    inl (BuiltinError ValueError
           (u "OPENAI_API_KEY environment variable is required"))
  else
    inr {| config_NEWSAPI_KEY := match news_key with Some k => k | None => [] end;
           config_OPENAI_API_KEY :=
             match openai_key with Some k => k | None => [] end |}.

(** An environment that sets both keys. *)
Definition example_env (name : pystr) : option pystr :=
  if PyStr.eqb name (u "NEWSAPI_KEY") then Some (u "news-key")
  else if PyStr.eqb name (u "OPENAI_API_KEY") then Some (u "openai-key")
  else None.

(** Both data providers are down; the language model answers. *)
Definition data_down_world : World :=
  world_of
    (fun _ _ _ => inl (RequestError ConnectionError (u "Connection refused.")))
    (fun _ => inl (LibraryError (u "YFRateLimitError") (u "Too Many Requests.")))
    (chat_of (inr (Some (u "Our top pick is NVDA, a strong buy")))
             (inr (Some (u "Strong buy.")))).

(** The end-to-end example with the template missing: the template engine
    raises [TemplateNotFound], whose text is the name of the template. *)
Definition missing_template_world : World :=
  {| NEWSAPI_KEY := NEWSAPI_KEY graphex_world;
     OPENAI_API_KEY := OPENAI_API_KEY graphex_world;
     requests_get := requests_get graphex_world;
     yf_Ticker_info := yf_Ticker_info graphex_world;
     chat_completion := chat_completion graphex_world;
     render_error :=
       fun name _ => Some (LibraryError (u "TemplateNotFound") name) |}.

Section App.

(** [str.isalnum] on the code points beyond ASCII, as the interpreter's
    Unicode database has it.  The regular-expression engine asks it to
    decide what a word character is. *)
Variable unicode_isalnum : char -> bool.

(** [\w] on a [str] pattern: alphanumeric or the underscore. *)
Definition is_word (c : char) : bool :=
  if (c <? 128)%N then
    in_range 48 57 c || in_range 65 90 c || in_range 97 122 c
    || (c =? 95)%N
  else unicode_isalnum c.

Definition word_before (prev : option char) : bool :=
  match prev with Some c => is_word c | None => false end.

Definition word_after (rest : pystr) : bool :=
  match rest with c :: _ => is_word c | [] => false end.

(** [\b]: exactly one side of the position is a word character. *)
Definition at_boundary (prev : option char) (rest : pystr) : bool :=
  xorb (word_before prev) (word_after rest).

(** A greedy repetition that has taken [k] characters tries the rest of
    the pattern, [continue], after them, and gives the characters back one
    at a time while that fails; below [min] repetitions it cannot match. *)
Fixpoint give_back (continue : option char -> pystr -> option pystr)
  (min : nat) (prev : option char) (rest : pystr) (k : nat) : option pystr :=
  let attempt :=
    if (min <=? k)%nat then
      match continue (prev_after prev rest k) (skipn k rest) with
      | Some m => Some (firstn k rest ++ m)
      | None => None
      end
    else None in
  match attempt, k with
  | Some m, _ => Some m
  | None, S k' => give_back continue min prev rest k'
  | None, O => None
  end.

(** Backtracking match of the pattern at a position: the text matched,
    if any. *)
Fixpoint match_here (p : regex) (prev : option char) (rest : pystr)
  : option pystr :=
  match p with
  | [] => Some []
  | WordBoundary :: p' =>
      if at_boundary prev rest then match_here p' prev rest else None
  | ClassRepeat lo hi min max :: p' =>
      give_back (match_here p') min prev rest (class_run lo hi max rest)
  end.

(** [re.findall(p, text)] for a pattern without groups: the matches, not
    overlapping, in the order found scanning from the left.  After a
    match the scan resumes where it ended (one further on after an empty
    match).  The scan moves forward at every step, so [fuel] above the
    length of the text left is never used up. *)
Fixpoint findall_from (fuel : nat) (p : regex) (prev : option char)
  (rest : pystr) : list pystr :=
  match fuel with
  | O => []
  | S fuel' =>
      match match_here p prev rest with
      | Some (c :: m) =>
          let n := List.length (c :: m) in
          (c :: m) :: findall_from fuel' p (prev_after prev rest n) (skipn n rest)
      | Some [] =>
          [] :: match rest with
                | [] => []
                | c :: rest' => findall_from fuel' p (Some c) rest'
                end
      | None =>
          match rest with
          | [] => []
          | c :: rest' => findall_from fuel' p (Some c) rest'
          end
      end
  end.

Definition findall (p : regex) (text : pystr) : list pystr :=
  findall_from (S (List.length text)) p None text.

(** [r'\b[A-Z]{1,5}\b'] *)
Definition symbol_pattern : regex :=
  [WordBoundary; ClassRepeat 65 90 1 5; WordBoundary].

Definition common_words : list pystr :=
  map u ["THE"; "AND"; "FOR"; "ARE"; "YOU"; "ALL"; "NEW"; "TOP"; "BEST";
         "HIGH"; "LOW"]%string.

(** [s in common_words] *)
Definition is_common_word (s : pystr) : bool :=
  existsb (PyStr.eqb s) common_words.

(** The condition of the list comprehension:
    [s not in common_words and len(s) >= 2]. *)
Definition keeps (s : pystr) : bool :=
  negb (is_common_word s) && (2 <=? List.length s)%nat.

Definition extract_stock_symbol (ai_discovery : pystr) : option pystr :=
  let symbols := findall symbol_pattern ai_discovery in
  let symbols := filter keeps symbols in
  match symbols with
  | s :: _ => Some s
  | [] => None
  end.

(** *** The extractor as the specification words it

    A word-bounded run of 1 to 5 uppercase Latin letters starts at a
    position when, for some length [n] from 1 to 5, the next [n]
    characters are uppercase Latin letters and there is a word boundary
    on both sides of them. *)
Definition is_upper_latin (c : char) : bool := in_range 65 90 c.

Definition run_at (prev : option char) (rest : pystr) (n : nat) : bool :=
  at_boundary prev rest
  && (n <=? List.length rest)%nat
  && forallb is_upper_latin (firstn n rest)
  && at_boundary (prev_after prev rest n) (skipn n rest).

Definition run_from (prev : option char) (rest : pystr) : option pystr :=
  match find (run_at prev rest) [1; 2; 3; 4; 5]%nat with
  | Some n => Some (firstn n rest)
  | None => None
  end.

(** The runs of a text, by starting position from left to right. *)
Fixpoint word_bounded_runs (prev : option char) (rest : pystr) : list pystr :=
  match rest with
  | [] => []
  | c :: rest' =>
      match run_from prev rest with
      | Some w => w :: word_bounded_runs (Some c) rest'
      | None => word_bounded_runs (Some c) rest'
      end
  end.

Definition stoplisted (s : pystr) : Prop := In s common_words.

(** A run survives when it is not stoplisted and has 2 characters or
    more. *)
Definition survives (s : pystr) : bool :=
  negb (existsb (PyStr.eqb s) common_words) && negb (List.length s <? 2)%nat.

Definition first_surviving_run (text : pystr) : option pystr :=
  List.find survives (word_bounded_runs None text).

(** Whether the longest uppercase run at the position, of length [n], is
    a word-bounded run. *)
Definition bounded_run (prev : option char) (rest : pystr) (n : nat) : bool :=
  at_boundary prev rest && (1 <=? n)%nat
  && at_boundary (prev_after prev rest n) (skipn n rest).

(** ** The [/stock] route *)

Definition full_analysis (ai_discovery ai_recommendation : pystr) : pystr :=
  u "AI Stock Discovery:" ++ nl ++ ai_discovery ++ nl ++ nl
  ++ u "Detailed Analysis:" ++ nl ++ ai_recommendation.

(** The body of the [try] block, the call of [render_template]
    included. *)
Definition stock_body (w : World) : M page :=
  logger_info (u "Discovering promising stocks...") ;;
  discovered <- get_ai_stock_discovery w ;;
  match discovered with
  | None => abort 500 (u "Failed to discover stocks")
  | Some ai_discovery =>
      match extract_stock_symbol ai_discovery with
      | None | Some [] => abort 500 (u "Failed to discover any stocks")
      | Some stock_symbol =>
          logger_info (u "Discovered stock: " ++ stock_symbol) ;;
          analyzed <- analyze_single_stock w stock_symbol ;;
          match analyzed with
          | None => abort 500 (u "Failed to analyze the discovered stock")
          | Some data =>
              analysis_prompt <- lift (build_analysis_prompt data) ;;
              recommended <- get_ai_recommendation w analysis_prompt ;;
              match recommended with
              | None => abort 500 (u "Failed to get AI recommendation")
              | Some ai_recommendation =>
                  lift (render_template w (u "stock.html")
                          (full_analysis ai_discovery ai_recommendation))
              end
          end
      end
  end.

(** The description of the error the handler of the route reports. *)
Definition generic_description : pystr :=
  u "Failed to generate stock recommendation".

(** [abort] raises an [HTTPException], an [Exception]: the handler of the
    route catches the aborts of its own [try] block too. *)
Definition stock (w : World) : M page :=
  try_except (stock_body w) is_Exception
    (fun e =>
       logger_error (u "Error generating stock recommendation: "
                       ++ exn_str e) ;;
       abort 500 generic_description).

(** *** The stage at which a run fails, as the specification counts them *)

Inductive fails_at (w : World) : stage -> Prop :=
| fails_at_discovery (err : exn) :
    discovery_call w = inl err ->
    fails_at w Discovery
| fails_at_extraction (text : pystr) :
    discovery_call w = inr (Some text) ->
    extract_stock_symbol text = None ->
    fails_at w Extraction
| fails_at_analysis (text stock_symbol prompt : pystr) (data : stock_data)
    (l0 l1 : list log_record) (err : exn) :
    discovery_call w = inr (Some text) ->
    extract_stock_symbol text = Some stock_symbol ->
    analyze_single_stock w stock_symbol l0 = (inr (Some data), l1) ->
    build_analysis_prompt data = inr prompt ->
    analysis_call w prompt = inl err ->
    fails_at w Analysis.

(** The failure reported to the caller carries a stage tag: some reading
    [stage_of] of the reported exception gives, for every failing run, the
    stage at which it failed. *)
Definition stage_tagged (stage_of : exn -> stage) : Prop :=
  forall (w : World) (s : stage) (l l' : list log_record) (e : exn),
    fails_at w s -> stock w l = (inl e, l') -> stage_of e = s.


(** * Properties *)

(** ** Strings *)

Lemma pystr_eqb_eq (a b : pystr) : PyStr.eqb a b = true <-> a = b.
Proof.
  revert b; induction a as [|x a IH]; intros [|y b]; simpl; split;
    intros H; try reflexivity; try discriminate.
  - apply andb_true_iff in H as [Hc Hr].
    apply N.eqb_eq in Hc. apply IH in Hr. now subst.
  - injection H as -> ->. apply andb_true_iff. split.
    + apply N.eqb_refl.
    + now apply IH.
Qed.

Lemma contains_intro (needle hay pre post : pystr) :
  hay = pre ++ needle ++ post -> contains needle hay.
Proof. intros H. now exists pre, post. Qed.

Lemma contains_here (a r : pystr) : contains a (a ++ r).
Proof. exists [], r. reflexivity. Qed.

Lemma contains_here3 (a b c r : pystr) :
  contains (a ++ b ++ c) (a ++ b ++ c ++ r).
Proof. exists [], r. cbn [app]. now rewrite <- !app_assoc. Qed.

Lemma contains_later (x a r : pystr) : contains x r -> contains x (a ++ r).
Proof.
  intros (pre & post & ->). exists (a ++ pre), post. now rewrite <- app_assoc.
Qed.

Lemma containsb_sound (needle hay : pystr) :
  containsb needle hay = true -> contains needle hay.
Proof.
  assert (P : forall p s, prefixb p s = true -> exists r, s = p ++ r).
  { induction p as [|x p IH]; intros s H.
    - now exists s.
    - destruct s as [|y s]; [discriminate|]. cbn [prefixb] in H.
      apply andb_true_iff in H as [Hc Hr]. apply N.eqb_eq in Hc. subst y.
      destruct (IH s Hr) as [r ->]. now exists r. }
  induction hay as [|c hay IH]; cbn [containsb]; intros H.
  - rewrite orb_false_r in H. destruct (P _ _ H) as [r ->].
    apply contains_here.
  - apply orb_true_iff in H as [H|H].
    + destruct (P _ _ H) as [r ->]. apply contains_here.
    + apply (contains_later needle [c]). now apply IH.
Qed.

(** ** Symbol extractor *)

Lemma upper_is_word (c : char) : is_upper_latin c = true -> is_word c = true.
Proof.
  unfold is_upper_latin, is_word, in_range. intros H.
  apply andb_true_iff in H as [H1 H2].
  apply N.leb_le in H1. apply N.leb_le in H2.
  destruct (N.ltb_spec c 128); [|lia].
  assert (E : ((65 <=? c) && (c <=? 90))%N = true).
  { apply andb_true_iff. split; now apply N.leb_le. }
  rewrite E. now rewrite orb_true_r.
Qed.

(** Between two uppercase letters there is no word boundary. *)
Lemma no_boundary_inside (a b : char) (rest : pystr) :
  is_upper_latin a = true -> is_upper_latin b = true ->
  at_boundary (Some a) (b :: rest) = false.
Proof.
  intros Ha Hb. unfold at_boundary. simpl.
  now rewrite (upper_is_word a Ha), (upper_is_word b Hb).
Qed.

(** *** The greedy class run *)

Lemma class_run_bound (lo hi : char) (max : nat) (rest : pystr) :
  (class_run lo hi max rest <= max)%nat
  /\ (class_run lo hi max rest <= List.length rest)%nat.
Proof.
  revert rest; induction max as [|max IH]; intros [|c rest]; simpl;
    try (split; lia).
  destruct (in_range lo hi c); [|split; lia].
  destruct (IH rest). split; lia.
Qed.

(** Every character of the run is in the class. *)
Lemma class_run_nth (lo hi : char) (max : nat) (rest : pystr) (i : nat) :
  (i < class_run lo hi max rest)%nat ->
  exists c, nth_error rest i = Some c /\ in_range lo hi c = true.
Proof.
  revert rest i; induction max as [|max IH]; intros [|c rest] i; simpl;
    try lia.
  destruct (in_range lo hi c) eqn:E; [|lia].
  destruct i as [|i]; intros H.
  - exists c. now split.
  - simpl. apply IH. lia.
Qed.

(** The run is the longest prefix in the class, up to [max]. *)
Lemma class_run_longest (lo hi : char) (max : nat) (rest : pystr) (n : nat) :
  (n <= max)%nat ->
  ((n <=? List.length rest)%nat && forallb (in_range lo hi) (firstn n rest))
  = (n <=? class_run lo hi max rest)%nat.
Proof.
  revert rest n; induction max as [|max IH]; intros rest n Hn.
  - assert (n = 0%nat) by lia. subst. now destruct rest.
  - destruct n as [|n]; [now destruct rest|].
    destruct rest as [|c rest]; [reflexivity|].
    cbn [class_run List.length firstn forallb].
    destruct (in_range lo hi c); cbn [andb].
    + change (S n <=? S (List.length rest))%nat with (n <=? List.length rest)%nat.
      change (S n <=? S (class_run lo hi max rest))%nat
        with (n <=? class_run lo hi max rest)%nat.
      apply IH. lia.
    + now rewrite andb_false_r.
Qed.

Lemma class_run_cons (lo hi : char) (max : nat) (c : char) (rest : pystr) :
  class_run lo hi (S max) (c :: rest)
  = if in_range lo hi c then S (class_run lo hi max rest) else O.
Proof. reflexivity. Qed.

Lemma skipn_nth_cons {A : Type} (l : list A) (n : nat) (x : A) :
  nth_error l n = Some x -> skipn n l = x :: skipn (S n) l.
Proof.
  revert n; induction l as [|a l IH]; intros [|n] H; simpl in *;
    try discriminate.
  - now injection H as ->.
  - now apply IH.
Qed.

(** Strictly inside a run of uppercase letters no position is a word
    boundary. *)
Lemma inside_run_no_boundary (prev : option char) (rest : pystr) (max k : nat) :
  (1 <= k)%nat -> (k < class_run 65 90 max rest)%nat ->
  at_boundary (prev_after prev rest k) (skipn k rest) = false.
Proof.
  intros H1 Hk. destruct k as [|k]; [lia|].
  destruct (class_run_nth 65%N 90%N max rest k) as (a & Ha & Ua); [lia|].
  destruct (class_run_nth 65%N 90%N max rest (S k)) as (b & Hb & Ub); [lia|].
  cbn [prev_after]. rewrite Ha. rewrite (skipn_nth_cons _ _ _ Hb).
  now apply no_boundary_inside.
Qed.

(** *** The matcher on the symbol pattern *)

Lemma match_here_cons_boundary (p : regex) (prev : option char) (rest : pystr) :
  match_here (WordBoundary :: p) prev rest
  = if at_boundary prev rest then match_here p prev rest else None.
Proof. reflexivity. Qed.

Lemma match_here_cons_repeat (lo hi : char) (min max : nat) (p : regex)
  (prev : option char) (rest : pystr) :
  match_here (ClassRepeat lo hi min max :: p) prev rest
  = give_back (match_here p) min prev rest (class_run lo hi max rest).
Proof. reflexivity. Qed.

Lemma match_here_boundary (prev : option char) (rest : pystr) :
  match_here [WordBoundary] prev rest
  = if at_boundary prev rest then Some [] else None.
Proof. reflexivity. Qed.

(** Giving back characters of an uppercase run never helps: the pattern
    wants a boundary next, and inside the run there is none. *)
Lemma give_back_inside (prev : option char) (rest : pystr) (max k : nat) :
  (k < class_run 65 90 max rest)%nat ->
  give_back (match_here [WordBoundary]) 1 prev rest k = None.
Proof.
  induction k as [|k IH]; intros Hk.
  - reflexivity.
  - cbn [give_back]. rewrite match_here_boundary.
    rewrite (inside_run_no_boundary prev rest max (S k)) by lia.
    cbn. apply IH. lia.
Qed.

Lemma match_here_symbol_run (prev : option char) (rest : pystr) :
  let n := class_run 65 90 5 rest in
  match_here symbol_pattern prev rest
  = if bounded_run prev rest n then Some (firstn n rest) else None.
Proof.
  intros n. unfold symbol_pattern, bounded_run.
  rewrite match_here_cons_boundary, match_here_cons_repeat. fold n.
  destruct (at_boundary prev rest); [|reflexivity]. cbn [andb].
  destruct n as [|k] eqn:En; [reflexivity|].
  cbn [give_back]. rewrite match_here_boundary.
  change (1 <=? S k)%nat with true. cbn [andb].
  destruct (at_boundary (prev_after prev rest (S k)) (skipn (S k) rest)).
  - now rewrite app_nil_r.
  - apply (give_back_inside prev rest 5). fold n. lia.
Qed.

Lemma run_at_longest (prev : option char) (rest : pystr) (n : nat) :
  (1 <= n <= 5)%nat ->
  run_at prev rest n
  = (n =? class_run 65 90 5 rest)%nat
    && bounded_run prev rest (class_run 65 90 5 rest).
Proof.
  intros Hn. unfold run_at, bounded_run.
  set (n0 := class_run 65 90 5 rest).
  rewrite <- !andb_assoc.
  destruct (at_boundary prev rest); cbn [andb]; [|now rewrite andb_false_r].
  rewrite andb_assoc.
  change is_upper_latin with (in_range 65 90).
  rewrite (class_run_longest 65%N 90%N 5 rest n) by lia. fold n0.
  destruct (Nat.eqb_spec n n0) as [->|Hne].
  - rewrite Nat.leb_refl. cbn [andb].
    destruct n0; [lia|reflexivity].
  - cbn [andb]. destruct (Nat.leb_spec n n0); [|reflexivity].
    cbn [andb]. apply (inside_run_no_boundary prev rest 5); fold n0; lia.
Qed.

Lemma run_from_longest (prev : option char) (rest : pystr) :
  let n := class_run 65 90 5 rest in
  run_from prev rest
  = if bounded_run prev rest n then Some (firstn n rest) else None.
Proof.
  intros n. unfold run_from. cbn [find].
  rewrite !run_at_longest by lia. fold n.
  assert (Hn : (n <= 5)%nat) by apply class_run_bound.
  destruct (bounded_run prev rest n) eqn:B.
  - rewrite !andb_true_r.
    assert (H1 : (1 <= n)%nat).
    { unfold bounded_run in B. apply andb_true_iff in B as [B _].
      apply andb_true_iff in B as [_ B]. now apply Nat.leb_le in B. }
    do 6 (destruct n as [|n]; [try lia; reflexivity|]). lia.
  - now rewrite !andb_false_r.
Qed.

(** The regular expression, matched at a position, finds exactly the
    word-bounded run that starts there. *)
Lemma match_here_symbol (prev : option char) (rest : pystr) :
  match_here symbol_pattern prev rest = run_from prev rest.
Proof.
  now rewrite match_here_symbol_run, run_from_longest.
Qed.

(** *** The scan *)

Lemma prev_after_cons (prev : option char) (c : char) (rest : pystr) (k : nat) :
  (k <= List.length rest)%nat ->
  prev_after prev (c :: rest) (S k) = prev_after (Some c) rest k.
Proof.
  intros Hk. destruct k as [|k]; [reflexivity|].
  cbn [prev_after nth_error].
  destruct (nth_error rest k) eqn:E; [reflexivity|].
  apply nth_error_None in E. lia.
Qed.

(** No run starts strictly inside a run of uppercase letters: the scan
    may jump to the end of a match without losing one. *)
Lemma runs_skip_inside (max k : nat) (prev : option char) (rest : pystr) :
  (k <= class_run 65 90 max rest)%nat ->
  word_before prev = true ->
  word_bounded_runs prev rest
  = word_bounded_runs (prev_after prev rest k) (skipn k rest).
Proof.
  revert max prev rest; induction k as [|k IH]; intros max prev rest Hk Hw.
  - reflexivity.
  - destruct max as [|max]; [destruct rest; simpl in Hk; lia|].
    destruct rest as [|c rest]; [simpl in Hk; lia|].
    cbn [class_run] in Hk.
    destruct (in_range 65 90 c) eqn:U; [|lia].
    assert (Hlen : (k <= List.length rest)%nat).
    { pose proof (class_run_bound 65%N 90%N max rest). lia. }
    cbn [word_bounded_runs].
    rewrite run_from_longest. unfold bounded_run at 1.
    assert (B : at_boundary prev (c :: rest) = false).
    { unfold at_boundary. rewrite Hw. cbn [word_after].
      now rewrite (upper_is_word c U). }
    rewrite B. cbn [andb].
    rewrite prev_after_cons by exact Hlen. cbn [skipn].
    apply (IH max); [lia|]. cbn [word_before]. now apply upper_is_word.
Qed.

(** [re.findall] on the symbol pattern returns the word-bounded runs of
    the text in scan order; the fuel of the scan is enough. *)
Lemma findall_from_runs (fuel : nat) (prev : option char) (rest : pystr) :
  (List.length rest < fuel)%nat ->
  findall_from fuel symbol_pattern prev rest = word_bounded_runs prev rest.
Proof.
  revert prev rest; induction fuel as [|fuel IH]; intros prev rest Hf; [lia|].
  cbn [findall_from]. rewrite match_here_symbol.
  destruct rest as [|c rest].
  - rewrite run_from_longest. unfold bounded_run. cbn [class_run Nat.leb].
    now rewrite andb_false_r.
  - cbn [word_bounded_runs].
    destruct (run_from prev (c :: rest)) as [w|] eqn:R.
    + rewrite run_from_longest in R.
      set (n := class_run 65 90 5 (c :: rest)) in R.
      destruct (bounded_run prev (c :: rest) n) eqn:B; [|discriminate].
      injection R as <-.
      assert (Hn : (1 <= n)%nat).
      { unfold bounded_run in B. apply andb_true_iff in B as [B _].
        apply andb_true_iff in B as [_ B]. now apply Nat.leb_le in B. }
      assert (Hlen : (n <= List.length (c :: rest))%nat)
        by apply class_run_bound.
      assert (En : n = class_run 65 90 5 (c :: rest)) by reflexivity.
      rewrite class_run_cons in En.
      destruct (in_range 65 90 c) eqn:U; [|lia].
      clearbody n. subst n.
      set (k := class_run 65 90 4 rest) in *.
      cbn [firstn]. cbn [List.length]. rewrite length_firstn.
      cbn [List.length] in Hlen, Hf.
      replace (S (Nat.min k (List.length rest))) with (S k) by lia.
      f_equal.
      rewrite IH by (rewrite length_skipn; cbn [List.length]; lia).
      rewrite prev_after_cons by lia. cbn [skipn].
      symmetry. apply (runs_skip_inside 4).
      * subst k. lia.
      * cbn [word_before]. now apply upper_is_word.
    + apply IH. cbn [List.length] in Hf. lia.
Qed.

Lemma findall_symbol_runs (text : pystr) :
  findall symbol_pattern text = word_bounded_runs None text.
Proof. unfold findall. apply findall_from_runs. lia. Qed.

Lemma keeps_survives (s : pystr) : keeps s = survives s.
Proof.
  unfold keeps, survives, is_common_word. f_equal.
  destruct (Nat.leb_spec 2 (List.length s)), (Nat.ltb_spec (List.length s) 2);
    try reflexivity; lia.
Qed.

Lemma head_filter_find {A : Type} (f : A -> bool) (l : list A) :
  match filter f l with x :: _ => Some x | [] => None end = find f l.
Proof.
  induction l as [|a l IH]; [reflexivity|]. simpl. now destruct (f a).
Qed.

Lemma find_pointwise {A : Type} (f g : A -> bool) (l : list A) :
  (forall x, f x = g x) -> find f l = find g l.
Proof.
  intros H. induction l as [|a l IH]; [reflexivity|].
  simpl. rewrite H, IH. reflexivity.
Qed.

Lemma extract_stock_symbol_find_run (text : pystr) :
  extract_stock_symbol text = first_surviving_run text.
Proof.
  unfold extract_stock_symbol, first_surviving_run.
  rewrite findall_symbol_runs, head_filter_find.
  apply find_pointwise. intros s. apply keeps_survives.
Qed.

(** C4. For every input text, [extract_stock_symbol] returns the first
    word-bounded run of 1 to 5 uppercase Latin letters, in left-to-right
    scan order, that is not stoplisted and has at least 2 characters, or
    nothing when no run survives; on "Our top pick is NVDA, a strong buy"
    it returns "NVDA". *)
Theorem extract_stock_symbol_first_surviving :
  (forall text : pystr, extract_stock_symbol text = first_surviving_run text)
  /\ extract_stock_symbol (u "Our top pick is NVDA, a strong buy")
     = Some (u "NVDA").
Proof.
  split; [exact extract_stock_symbol_find_run | reflexivity].
Qed.

Lemma is_common_word_In (s : pystr) :
  is_common_word s = true <-> stoplisted s.
Proof.
  unfold is_common_word, stoplisted. rewrite existsb_exists. split.
  - intros (w & Hin & Heq). apply pystr_eqb_eq in Heq. now subst.
  - intros Hin. exists s. split; [exact Hin|]. now apply pystr_eqb_eq.
Qed.

Lemma extract_stock_symbol_keeps (text s : pystr) :
  extract_stock_symbol text = Some s -> keeps s = true.
Proof.
  unfold extract_stock_symbol.
  destruct (filter keeps (findall symbol_pattern text)) as [|x l] eqn:F;
    [discriminate|].
  intros H. injection H as <-.
  assert (Hin : In x (filter keeps (findall symbol_pattern text))).
  { rewrite F. now left. }
  now apply filter_In in Hin.
Qed.

(** C5. For every input text, [extract_stock_symbol] never returns a word
    of the stoplist (THE, AND, FOR, ARE, YOU, ALL, NEW, TOP, BEST, HIGH,
    LOW) and never returns a string shorter than 2 characters; on
    "THE AND FOR ARE" it returns nothing. *)
Theorem extract_stock_symbol_never_stoplisted :
  (forall text s : pystr,
      extract_stock_symbol text = Some s ->
      ~ stoplisted s /\ (2 <= List.length s)%nat)
  /\ common_words
     = [u "THE"; u "AND"; u "FOR"; u "ARE"; u "YOU"; u "ALL"; u "NEW"; u "TOP";
        u "BEST"; u "HIGH"; u "LOW"]
  /\ extract_stock_symbol (u "THE AND FOR ARE") = None.
Proof.
  split; [|split; reflexivity].
  intros text s H. apply extract_stock_symbol_keeps in H.
  unfold keeps in H. apply andb_true_iff in H as [Hc Hl]. split.
  - intros Hs. apply is_common_word_In in Hs. rewrite Hs in Hc. discriminate.
  - now apply Nat.leb_le.
Qed.

Lemma run_from_some (prev : option char) (rest w : pystr) :
  run_from prev rest = Some w ->
  exists n, (1 <= n <= 5)%nat /\ run_at prev rest n = true /\ w = firstn n rest.
Proof.
  unfold run_from.
  destruct (find (run_at prev rest) [1; 2; 3; 4; 5]%nat) as [n|] eqn:F;
    [|discriminate].
  intros H. injection H as <-. apply find_some in F as [Hin Hr].
  exists n. repeat split; try assumption;
    cbn [In] in Hin; decompose [or] Hin; subst; try lia; contradiction.
Qed.

Lemma run_at_shape (prev : option char) (rest : pystr) (n : nat) :
  run_at prev rest n = true ->
  List.length (firstn n rest) = n
  /\ forallb is_upper_latin (firstn n rest) = true.
Proof.
  unfold run_at. intros H.
  apply andb_true_iff in H as [H _]. apply andb_true_iff in H as [H Hu].
  apply andb_true_iff in H as [_ Hl]. apply Nat.leb_le in Hl.
  split; [|exact Hu]. rewrite length_firstn. lia.
Qed.

(** Every run the scan lists is a slice of the text, made of 1 to 5
    uppercase Latin letters. *)
Lemma word_bounded_runs_slices (prev : option char) (rest w : pystr) :
  In w (word_bounded_runs prev rest) ->
  contains w rest
  /\ (1 <= List.length w <= 5)%nat
  /\ forallb is_upper_latin w = true.
Proof.
  revert prev; induction rest as [|c rest IH]; intros prev Hin; [contradiction|].
  cbn [word_bounded_runs] in Hin.
  assert (Later : In w (word_bounded_runs (Some c) rest) ->
                  contains w (c :: rest)
                  /\ (1 <= List.length w <= 5)%nat
                  /\ forallb is_upper_latin w = true).
  { intros H. destruct (IH _ H) as (Hc & Hl & Hu).
    split; [now apply (contains_later w [c])|]. now split. }
  destruct (run_from prev (c :: rest)) as [r|] eqn:R; [|now apply Later].
  destruct Hin as [<-|Hin]; [|now apply Later].
  apply run_from_some in R as (n & Hn & Hr & ->).
  destruct (run_at_shape _ _ _ Hr) as [Hl Hu].
  rewrite Hl. repeat split; try assumption; try lia.
  exists [], (skipn n (c :: rest)). cbn [app]. now rewrite firstn_skipn.
Qed.

(** The symbol returned is a slice of the text, made of 2 to 5 uppercase
    Latin letters. *)
Theorem extract_stock_symbol_shape (text s : pystr) :
  extract_stock_symbol text = Some s ->
  contains s text
  /\ (2 <= List.length s <= 5)%nat
  /\ forallb is_upper_latin s = true.
Proof.
  intros H. pose proof (extract_stock_symbol_keeps text s H) as K.
  rewrite extract_stock_symbol_find_run in H.
  unfold first_surviving_run in H. apply find_some in H as [Hin _].
  apply word_bounded_runs_slices in Hin as (Hc & Hl & Hu).
  unfold keeps in K. apply andb_true_iff in K as [_ K]. apply Nat.leb_le in K.
  repeat split; try assumption; lia.
Qed.

(** ** News client *)

Lemma get_news_headlines_unfold (w : World) (ticker : pystr) (n : Z)
  (l : list log_record) :
  get_news_headlines w ticker n l
  = match rbind (news_request w ticker) (fun r => titles_of_response r n) with
    | inr titles => (inr titles, l)
    | inl e =>
        if is_RequestException e
        then (inr [], l ++ [news_failure_log ticker e])
        else (inl e, l)
    end.
Proof.
  unfold get_news_headlines, titles_of_response, try_except, bind, lift, rbind,
    logger_error, ret, news_failure_log.
  destruct (news_request w ticker) as [e|r]; [reflexivity|].
  destruct (raise_for_status r) as [e|[]]; [reflexivity|].
  destruct (response_json r) as [e|data]; [reflexivity|].
  destruct (json_get data (u "articles") (JList [])) as [e|all]; [reflexivity|].
  destruct (json_slice_to all n) as [e|articles]; [reflexivity|].
  destruct (json_iter articles) as [e|items]; [reflexivity|].
  destruct (comprehension _ items); reflexivity.
Qed.

Lemma raise_for_status_error (r : Response) (e : exn) :
  raise_for_status r = inl e -> is_RequestException e = true.
Proof.
  unfold raise_for_status.
  destruct ((400 <=? status_code r) && (status_code r <? 500));
    [intros H; injection H as <-; reflexivity|].
  destruct ((500 <=? status_code r) && (status_code r <? 600));
    [intros H; injection H as <-; reflexivity|discriminate].
Qed.

Lemma raise_for_status_ok (r : Response) :
  ~ 400 <= status_code r < 600 -> raise_for_status r = inr tt.
Proof.
  intros H. unfold raise_for_status.
  destruct (Z.leb_spec 400 (status_code r)), (Z.ltb_spec (status_code r) 500),
    (Z.leb_spec 500 (status_code r)), (Z.ltb_spec (status_code r) 600);
    cbn [andb]; try reflexivity; lia.
Qed.

(** C2 (amended). For every ticker and every failure of the news fetch
    that is a [requests.RequestException] (timeout or network error, a 4xx
    or 5xx status, a body that is not JSON), [get_news_headlines] returns the
    empty list, logs the failure and does not raise. *)
Theorem get_news_headlines_absorbs_request_failure
  (w : World) (ticker : pystr) (max_articles : Z) (e : exn)
  (l : list log_record) :
  fetch_failure w ticker e ->
  get_news_headlines w ticker max_articles l
  = (inr [], l ++ [news_failure_log ticker e]).
Proof.
  intros F. rewrite get_news_headlines_unfold.
  destruct F as [k msg H | r e H Hs He | r msg H Hs Hd]; rewrite H;
    cbn [rbind]; unfold titles_of_response.
  - reflexivity.
  - rewrite He. cbn [rbind]. now rewrite (raise_for_status_error r e He).
  - rewrite Hs. cbn [rbind]. unfold response_json. rewrite Hd. reflexivity.
Qed.

(** What [get_news_headlines] raises is never a [RequestException]: its
    handler absorbs them all. *)
Theorem get_news_headlines_raises_no_request_error
  (w : World) (ticker : pystr) (max_articles : Z) (l l' : list log_record)
  (e : exn) :
  get_news_headlines w ticker max_articles l = (inl e, l') ->
  is_RequestException e = false.
Proof.
  rewrite get_news_headlines_unfold.
  destruct (rbind _ _) as [e'|titles]; [|discriminate].
  destruct (is_RequestException e') eqn:R; [discriminate|].
  intros H. now injection H as <- _.
Qed.

Lemma comprehension_titles (articles titles : list json) :
  map title_of articles = map Some titles ->
  comprehension (fun article => json_getitem article (u "title")) articles
  = inr titles.
Proof.
  revert titles; induction articles as [|a articles IH]; intros [|t titles] H;
    try discriminate; [reflexivity|].
  cbn [map] in H. injection H as Ha Hr.
  cbn [comprehension]. rewrite (IH titles Hr).
  destruct a as [v|items|fields]; cbn [title_of] in Ha; try discriminate.
  cbn [json_getitem]. now rewrite Ha.
Qed.

(** C8. For every ticker and every successful news response (a status
    that is no error, a JSON object whose [articles] array starts with
    objects that have a title), [get_news_headlines] returns the titles of
    the first [max_articles] articles in the provider's order, at most
    [max_articles] of them (3 by default). *)
Theorem get_news_headlines_first_titles
  (w : World) (ticker : pystr) (max_articles : Z) (r : Response)
  (fields : list (pystr * json)) (articles titles : list json)
  (l : list log_record) :
  0 <= max_articles ->
  news_request w ticker = inr r ->
  raise_for_status r = inr tt ->
  decoded r = inr (JDict fields) ->
  lookup (u "articles") fields = Some (JList articles) ->
  map title_of (firstn (Z.to_nat max_articles) articles) = map Some titles ->
  get_news_headlines w ticker max_articles l = (inr titles, l)
  /\ Z.of_nat (List.length titles) <= max_articles
  /\ default_max_articles = 3.
Proof.
  intros Hn Hreq Hs Hd Ha Ht. split; [|split; [|reflexivity]].
  - rewrite get_news_headlines_unfold, Hreq.
    cbn [rbind]. unfold titles_of_response. rewrite Hs. cbn [rbind].
    unfold response_json. rewrite Hd. cbn [rbind json_get]. rewrite Ha.
    cbn [rbind json_slice_to json_iter]. unfold slice_to.
    destruct (Z.ltb_spec max_articles 0); [lia|].
    now rewrite (comprehension_titles _ titles Ht).
  - assert (E : List.length titles
                = List.length (firstn (Z.to_nat max_articles) articles)).
    { rewrite <- (length_map Some titles), <- Ht. apply length_map. }
    rewrite E, length_firstn. lia.
Qed.

(** C10. If the news provider returns a 2xx response whose JSON object
    lacks the [articles] key, [get_news_headlines] returns the empty list
    without error and without logging, exactly as for an empty [articles]
    array. *)
Theorem get_news_headlines_missing_articles
  (w : World) (ticker : pystr) (max_articles : Z) (r : Response)
  (fields : list (pystr * json)) (l : list log_record) :
  news_request w ticker = inr r ->
  200 <= status_code r < 300 ->
  decoded r = inr (JDict fields) ->
  lookup (u "articles") fields = None
  \/ lookup (u "articles") fields = Some (JList []) ->
  get_news_headlines w ticker max_articles l = (inr [], l).
Proof.
  intros Hreq Hs Hd Ha.
  rewrite get_news_headlines_unfold, Hreq.
  cbn [rbind]. unfold titles_of_response.
  rewrite raise_for_status_ok by lia. cbn [rbind].
  unfold response_json. rewrite Hd. cbn [rbind json_get].
  destruct Ha as [-> | ->]; cbn [rbind json_slice_to json_iter]; unfold slice_to;
    destruct (max_articles <? 0); cbn; rewrite ?firstn_nil; reflexivity.
Qed.

(** ** Market data client *)

Lemma get_stock_price_data_unfold (w : World) (ticker : pystr)
  (l : list log_record) :
  get_stock_price_data w ticker l
  = match yf_Ticker_info w ticker with
    | inl e => (inr no_price_data, l ++ [stock_failure_log ticker e])
    | inr info =>
        let c := info_get info (u "regularMarketPrice") in
        let p := info_get info (u "regularMarketPreviousClose") in
        if truthy c && truthy p && ne_zero p then
          match change_formula c p with
          | inr v => (inr {| pd_price := c; pd_change_percentage := v |}, l)
          | inl e => (inr no_price_data, l ++ [stock_failure_log ticker e])
          end
        else (inr {| pd_price := c; pd_change_percentage := PNone |}, l)
    end.
Proof.
  unfold get_stock_price_data, try_except, bind, lift, logger_error, ret,
    no_price_data, stock_failure_log, is_Exception.
  destruct (yf_Ticker_info w ticker) as [e|info]; [reflexivity|].
  cbv zeta.
  destruct (truthy _ && truthy _ && ne_zero _); [|reflexivity].
  destruct (change_formula _ _); reflexivity.
Qed.

Lemma truthy_ne_zero (v : pyval) : truthy v = true -> ne_zero v = true.
Proof. destruct v as [|b|n|x|s]; simpl; try discriminate; auto. Qed.

(** C7. For every ticker and every provider error (the provider call
    raises, or its values make the arithmetic raise), and for a ticker the
    provider has no prices for, [get_stock_price_data] returns
    [{price: None, change_percentage: None}]; it never raises. *)
Theorem get_stock_price_data_absorbs_errors
  (w : World) (ticker : pystr) (l : list log_record) :
  (exists d l', get_stock_price_data w ticker l = (inr d, l'))
  /\ (forall e, provider_error w ticker e ->
        get_stock_price_data w ticker l
        = (inr {| pd_price := PNone; pd_change_percentage := PNone |},
           l ++ [stock_failure_log ticker e]))
  /\ (forall info, yf_Ticker_info w ticker = inr info ->
        lookup (u "regularMarketPrice") info = None ->
        lookup (u "regularMarketPreviousClose") info = None ->
        get_stock_price_data w ticker l
        = (inr {| pd_price := PNone; pd_change_percentage := PNone |}, l)).
Proof.
  rewrite get_stock_price_data_unfold. repeat split.
  - destruct (yf_Ticker_info w ticker) as [e|info]; [now eauto|].
    cbv zeta. destruct (truthy _ && truthy _ && ne_zero _); [|now eauto].
    destruct (change_formula _ _); now eauto.
  - intros e [e' H | info e' H Hc Hp Hf]; rewrite H; [reflexivity|].
    cbv zeta. rewrite Hc, Hp, (truthy_ne_zero _ Hp), Hf. reflexivity.
  - intros info H Hc Hp. rewrite H. unfold info_get. now rewrite Hc, Hp.
Qed.

Lemma float_change_formula (x y : f64) :
  truthy (PFloat y) = true ->
  change_formula (PFloat x) (PFloat y)
  = inr (PFloat (py_round (f64_mul (f64_div (f64_sub x y) y) (Float64.of_Z 100)) 2)).
Proof.
  intros Hy. unfold change_formula. cbn [py_sub as_number rbind py_truediv].
  unfold float_truediv. cbn [truthy] in Hy.
  destruct (f64_eqb y zero); [discriminate|]. reflexivity.
Qed.

(** C3 (amended). For every provider response, [get_stock_price_data]
    returns a null change percentage when the current price or the
    previous close is missing or zero (any falsy value); otherwise it
    returns the value of (current - previous) / previous * 100 rounded to 2
    decimal places, which for floats always exists; price 100 and previous
    close 90 give 11.11, and a previous close of 0 gives null whatever the
    price. *)
Theorem get_stock_price_data_change
  (w : World) (ticker : pystr) (info : list (pystr * pyval))
  (l : list log_record) :
  yf_Ticker_info w ticker = inr info ->
  let c := info_get info (u "regularMarketPrice") in
  let p := info_get info (u "regularMarketPreviousClose") in
  (truthy c = false \/ truthy p = false ->
   get_stock_price_data w ticker l
   = (inr {| pd_price := c; pd_change_percentage := PNone |}, l))
  /\ (forall v, truthy c = true -> truthy p = true ->
        change_formula c p = inr v ->
        get_stock_price_data w ticker l
        = (inr {| pd_price := c; pd_change_percentage := v |}, l))
  /\ (forall x y, c = PFloat x -> p = PFloat y ->
        truthy c = true -> truthy p = true ->
        change_formula c p
        = inr (PFloat (py_round
                         (f64_mul (f64_div (f64_sub x y) y) (Float64.of_Z 100))
                         2)))
  /\ change_formula (PInt 100) (PInt 90) = inr (PFloat (literal 1111 (-2)))
  /\ truthy (PInt 0) = false /\ truthy (PFloat zero) = false
  /\ truthy PNone = false.
Proof.
  intros H c p. rewrite get_stock_price_data_unfold, H. cbv zeta. fold c p.
  repeat split.
  - intros [Hc | Hp]; rewrite ?Hc, ?Hp, ?andb_false_r; reflexivity.
  - intros v Hc Hp Hv.
    now rewrite Hc, Hp, (truthy_ne_zero _ Hp), Hv.
  - intros x y -> -> _ Hy. now apply float_change_formula.
Qed.

(** ** Analysis prompt *)

Ltac slice := repeat first [ apply contains_here3 | apply contains_later ].

Lemma join_items_headlines (headlines : list pystr) (i : Z) :
  join_items i (headline_items headlines) = inr headlines.
Proof.
  revert i; induction headlines as [|h hs IH]; intros i; [reflexivity|].
  cbn [headline_items map join_items]. fold (headline_items hs).
  now rewrite IH.
Qed.

Lemma news_str_headlines (sym : pystr) (pr ch : pyval) (headlines : list pystr) :
  news_str {| symbol := sym; price := pr; change_percentage := ch;
              news := headline_items headlines |}
  = inr (headlines_text headlines).
Proof.
  unfold news_str. cbn [news]. destruct headlines as [|h hs]; [reflexivity|].
  cbn [headline_items map]. unfold py_join. cbn [join_items].
  fold (headline_items hs). rewrite join_items_headlines. reflexivity.
Qed.

(** C6 (amended). For every stock snapshot whose headlines are strings,
    [build_analysis_prompt] produces a prompt containing the ticker, the
    price prefixed with "$" or "N/A" exactly when the price is null or zero
    (falsy), the change percentage suffixed with "%" or "N/A" exactly when
    the change is null, and the headlines joined with "; " or "No recent
    news" when there is none.  For symbol GRPH, quote 12.5 with previous
    close 10 and the headline "Graphex wins contract" the prompt contains
    "Stock: GRPH", "Current Price: $12.5", "Daily Change: 25.0%" and
    "Graphex wins contract". *)
Theorem build_analysis_prompt_contents :
  (forall (sym : pystr) (pr ch : pyval) (headlines : list pystr),
      let d := {| symbol := sym; price := pr; change_percentage := ch;
                  news := headline_items headlines |} in
      exists prompt,
        build_analysis_prompt d = inr prompt
        /\ contains (u "Stock: " ++ sym ++ nl) prompt
        /\ contains (u "Current Price: "
                     ++ (if truthy pr then u "$" ++ py_format pr else u "N/A")
                     ++ nl) prompt
        /\ contains (u "Daily Change: "
                     ++ (if is_not_None ch then py_format ch ++ u "%"
                         else u "N/A")
                     ++ nl) prompt
        /\ contains (u "Recent News: " ++ headlines_text headlines ++ nl) prompt)
  /\ extract_stock_symbol (u "...GRPH (Graphex Inc)...") = Some (u "GRPH")
  /\ run (analyze_single_stock graphex_world (u "GRPH"))
     = (inr (Some graphex_snapshot), [])
  /\ (exists prompt,
        build_analysis_prompt graphex_snapshot = inr prompt
        /\ contains (u "Stock: GRPH") prompt
        /\ contains (u "Current Price: $12.5") prompt
        /\ contains (u "Daily Change: 25.0%") prompt
        /\ contains (u "Graphex wins contract") prompt).
Proof.
  split; [|split; [|split]].
  - intros sym pr ch headlines d.
    exists (prompt_text d (headlines_text headlines)).
    unfold build_analysis_prompt. subst d. rewrite news_str_headlines.
    cbn [rbind]. split; [reflexivity|].
    unfold prompt_text, price_str, change_str.
    cbn [symbol price change_percentage].
    repeat split; slice.
  - reflexivity.
  - vm_compute. reflexivity.
  - eexists. split; [vm_compute; reflexivity|].
    repeat split; apply containsb_sound; vm_compute; reflexivity.
Qed.

(** ** The [/stock] route *)

Lemma get_ai_stock_discovery_unfold (w : World) (l : list log_record) :
  get_ai_stock_discovery w l
  = match discovery_call w with
    | inr d => (inr d, l)
    | inl e =>
        (inl e,
         l ++ [LogRecord ERROR
                 (u "Failed to get AI stock discovery: " ++ exn_str e)])
    end.
Proof.
  unfold get_ai_stock_discovery, try_except, lift, bind, logger_error, raise.
  destruct (discovery_call w); reflexivity.
Qed.

Lemma get_ai_recommendation_unfold (w : World) (prompt : pystr)
  (l : list log_record) :
  get_ai_recommendation w prompt l
  = match analysis_call w prompt with
    | inr r => (inr r, l)
    | inl e =>
        (inl e,
         l ++ [LogRecord ERROR
                 (u "Failed to get AI recommendation: " ++ exn_str e)])
    end.
Proof.
  unfold get_ai_recommendation, try_except, lift, bind, logger_error, raise.
  destruct (analysis_call w prompt); reflexivity.
Qed.

Lemma stock_unfold (w : World) (l : list log_record) :
  stock w l
  = match stock_body w l with
    | (inr pg, l') => (inr pg, l')
    | (inl e, l') =>
        (inl (HTTPException 500 generic_description),
         l' ++ [LogRecord ERROR
                  (u "Error generating stock recommendation: " ++ exn_str e)])
    end.
Proof.
  unfold stock, try_except, bind, logger_error, abort, raise, is_Exception.
  destruct (stock_body w l) as [[e|pg] l']; reflexivity.
Qed.

(** A successful run of the [try] block went through both language-model
    calls and rendered their two texts. *)
Lemma stock_body_success (w : World) (l l' : list log_record) (pg : page) :
  stock_body w l = (inr pg, l') ->
  exists d r prompt,
    discovery_call w = inr (Some d)
    /\ analysis_call w prompt = inr (Some r)
    /\ pg = {| template := u "stock.html"; ai_pick := full_analysis d r |}.
Proof.
  unfold stock_body, bind, logger_info, abort, raise, lift, ret.
  rewrite get_ai_stock_discovery_unfold.
  destruct (discovery_call w) as [e|[d|]] eqn:D; try discriminate.
  destruct (extract_stock_symbol d) as [[|c sym]|]; try discriminate.
  destruct (analyze_single_stock w (c :: sym) _) as [[e|[data|]] l2];
    try discriminate.
  destruct (build_analysis_prompt data) as [e|prompt]; try discriminate.
  rewrite get_ai_recommendation_unfold.
  destruct (analysis_call w prompt) as [e|[r|]] eqn:A; try discriminate.
  unfold render_template.
  destruct (render_error w _ _); try discriminate.
  intros H. injection H as <- _. now exists d, r, prompt.
Qed.

(** C9. The pipeline is all-or-nothing: a successful run renders the
    discovery text and the analysis text concatenated under the two fixed
    headers, and a run that fails at any stage reports the one generic
    error, which holds neither text. *)
Theorem stock_all_or_nothing (w : World) (l : list log_record) :
  match stock w l with
  | (inr pg, _) =>
      exists d r prompt,
        discovery_call w = inr (Some d)
        /\ analysis_call w prompt = inr (Some r)
        /\ pg = {| template := u "stock.html";
                   ai_pick := u "AI Stock Discovery:" ++ nl ++ d ++ nl ++ nl
                              ++ u "Detailed Analysis:" ++ nl ++ r |}
  | (inl e, _) =>
      e = HTTPException 500 (u "Failed to generate stock recommendation")
  end.
Proof.
  rewrite stock_unfold.
  destruct (stock_body w l) as [[e|pg] l'] eqn:B; [reflexivity|].
  exact (stock_body_success w l l' pg B).
Qed.

(** C1 (amended). The failure reported to the caller carries no stage
    tag: every run that fails, at whatever stage, reports HTTP 500 with the
    one generic description "Failed to generate stock recommendation".
    For every run in which the discovery language-model call errors, the
    route reports exactly that, and only the log names the step, in its
    entry "Failed to get AI stock discovery: ..."; for every run in which
    the extractor finds no symbol, the route reports exactly that too, and
    only the log holds "Failed to discover any stocks". *)
Theorem stock_failure_report (w : World) (l : list log_record) :
  (forall err, discovery_call w = inl err ->
     stock w l
     = (inl (HTTPException 500 (u "Failed to generate stock recommendation")),
        l ++ [LogRecord INFO (u "Discovering promising stocks...");
              LogRecord ERROR
                (u "Failed to get AI stock discovery: " ++ exn_str err);
              LogRecord ERROR
                (u "Error generating stock recommendation: " ++ exn_str err)]))
  /\ (forall text, discovery_call w = inr (Some text) ->
        extract_stock_symbol text = None ->
        stock w l
        = (inl (HTTPException 500
                  (u "Failed to generate stock recommendation")),
           l ++ [LogRecord INFO (u "Discovering promising stocks...");
                 LogRecord ERROR
                   (u "Error generating stock recommendation: 500 Internal Server Error: Failed to discover any stocks")]))
  /\ (forall e l',
        stock w l = (inl e, l') ->
        e = HTTPException 500 (u "Failed to generate stock recommendation")).
Proof.
  repeat split.
  - intros err D. rewrite stock_unfold.
    unfold stock_body, bind, logger_info.
    rewrite get_ai_stock_discovery_unfold, D.
    rewrite <- !app_assoc. reflexivity.
  - intros text D E. rewrite stock_unfold.
    unfold stock_body, bind, logger_info, abort, raise.
    rewrite get_ai_stock_discovery_unfold, D, E.
    rewrite <- !app_assoc. reflexivity.
  - intros e l'. rewrite stock_unfold.
    destruct (stock_body w l) as [[e0|pg] l0]; [|discriminate].
    intros H. now injection H as <- _.
Qed.

(** * Further properties *)

(** ** Symbol extractor: whole words, first match, fixed points *)

Lemma forallb_firstn_nth {A : Type} (f : A -> bool) (l : list A) (n k : nat) :
  forallb f (firstn n l) = true -> (k < n)%nat -> (k < List.length l)%nat ->
  exists a, nth_error l k = Some a /\ f a = true.
Proof.
  revert n k; induction l as [|x l IH]; intros n k H Hk Hl; [simpl in Hl; lia|].
  destruct n as [|n]; [lia|]. cbn [firstn forallb] in H.
  apply andb_true_iff in H as [Hx Hr].
  destruct k as [|k].
  - exists x. now split.
  - cbn [nth_error]. apply (IH n k Hr); [lia|simpl in Hl; lia].
Qed.

Lemma boundary_after_word (prev : option char) (rest : pystr) :
  word_before prev = true -> at_boundary prev rest = true ->
  word_after rest = false.
Proof.
  unfold at_boundary. intros ->. now destruct (word_after rest).
Qed.

Lemma boundary_before_word (prev : option char) (rest : pystr) :
  word_after rest = true -> at_boundary prev rest = true ->
  word_before prev = false.
Proof.
  unfold at_boundary. intros ->. now destruct (word_before prev).
Qed.

(** A run that starts at a position has a non-word character (or nothing)
    on each side. *)
Lemma run_at_bounded (prev : option char) (rest : pystr) (n : nat) :
  (1 <= n)%nat -> run_at prev rest n = true ->
  word_before prev = false /\ word_after (skipn n rest) = false.
Proof.
  intros Hn H. unfold run_at in H.
  apply andb_true_iff in H as [H Ba]. apply andb_true_iff in H as [H Hu].
  apply andb_true_iff in H as [Bb Hl]. apply Nat.leb_le in Hl.
  destruct (forallb_firstn_nth _ rest n 0 Hu) as (a & Ha & Ua); [lia|lia|].
  destruct (forallb_firstn_nth _ rest n (n - 1) Hu) as (b & Hb & Ub);
    [lia|lia|].
  split.
  - apply (boundary_before_word prev rest); [|exact Bb].
    destruct rest as [|c rest]; [discriminate|].
    cbn [nth_error] in Ha. injection Ha as ->. cbn [word_after].
    now apply upper_is_word.
  - apply (boundary_after_word (prev_after prev rest n)); [|exact Ba].
    destruct n as [|k]; [lia|]. cbn [prev_after].
    replace (S k - 1)%nat with k in Hb by lia. rewrite Hb. cbn [word_before].
    now apply upper_is_word.
Qed.

Lemma word_bounded_runs_whole_words (prev : option char) (rest w : pystr) :
  In w (word_bounded_runs prev rest) ->
  exists pre post,
    rest = pre ++ w ++ post
    /\ word_before (last_char prev pre) = false
    /\ word_after post = false.
Proof.
  revert prev; induction rest as [|c rest IH]; intros prev Hin; [contradiction|].
  cbn [word_bounded_runs] in Hin.
  assert (Later : In w (word_bounded_runs (Some c) rest) ->
                  exists pre post,
                    c :: rest = pre ++ w ++ post
                    /\ word_before (last_char prev pre) = false
                    /\ word_after post = false).
  { intros H. destruct (IH _ H) as (pre & post & -> & Hb & Ha).
    exists (c :: pre), post. now repeat split. }
  destruct (run_from prev (c :: rest)) as [r|] eqn:R; [|now apply Later].
  destruct Hin as [<-|Hin]; [|now apply Later].
  apply run_from_some in R as (n & Hn & Hr & ->).
  destruct (run_at_bounded prev (c :: rest) n) as [Hb Ha]; [lia|exact Hr|].
  exists [], (skipn n (c :: rest)). cbn [app last_char].
  rewrite firstn_skipn. now repeat split.
Qed.

(** The symbol returned is a whole word of the text: the character before
    it and the character after it, when there is one, are no word
    characters. *)
Theorem extract_stock_symbol_whole_word (text s : pystr) :
  extract_stock_symbol text = Some s ->
  exists pre post,
    text = pre ++ s ++ post
    /\ word_before (last_char None pre) = false
    /\ word_after post = false.
Proof.
  intros H. rewrite extract_stock_symbol_find_run in H.
  unfold first_surviving_run in H. apply find_some in H as [Hin _].
  now apply word_bounded_runs_whole_words.
Qed.

Lemma class_run_app (lo hi : char) (max : nat) (s post : pystr) :
  forallb (in_range lo hi) s = true ->
  (List.length s <= max)%nat ->
  match post with c :: _ => in_range lo hi c = false | [] => True end ->
  class_run lo hi max (s ++ post) = List.length s.
Proof.
  revert max; induction s as [|x s IH]; intros max Hs Hl Hp.
  - cbn [app List.length]. destruct max as [|max]; [now destruct post|].
    destruct post as [|c post]; [reflexivity|]. cbn [class_run]. now rewrite Hp.
  - cbn [forallb] in Hs. apply andb_true_iff in Hs as [Hx Hs].
    cbn [List.length] in Hl. destruct max as [|max]; [lia|].
    cbn [app class_run List.length]. rewrite Hx. f_equal.
    apply IH; [exact Hs|lia|exact Hp].
Qed.

Lemma prev_after_app_last (prev : option char) (s post : pystr) (c : char) :
  prev_after prev ((s ++ [c]) ++ post) (List.length (s ++ [c])) = Some c.
Proof.
  rewrite length_app. cbn [List.length].
  replace (List.length s + 1)%nat with (S (List.length s)) by lia.
  cbn [prev_after]. rewrite <- app_assoc. rewrite nth_error_app2 by lia.
  now rewrite Nat.sub_diag.
Qed.

Lemma not_word_not_upper (post : pystr) :
  word_after post = false ->
  match post with c :: _ => in_range 65 90 c = false | [] => True end.
Proof.
  destruct post as [|c post]; [trivial|]. cbn [word_after]. intros H.
  destruct (in_range 65 90 c) eqn:U; [|reflexivity].
  now rewrite (upper_is_word c U) in H.
Qed.

(** A word of 1 to 5 uppercase letters at a position, with no word
    character on either side, is the run that starts there. *)
Lemma run_from_leading (prev : option char) (s post : pystr) :
  (1 <= List.length s <= 5)%nat ->
  forallb is_upper_latin s = true ->
  word_before prev = false ->
  word_after post = false ->
  run_from prev (s ++ post) = Some s.
Proof.
  intros Hl Hu Hb Ha. rewrite run_from_longest. cbv zeta.
  rewrite (class_run_app 65%N 90%N 5 s post Hu) by
    (try lia; now apply not_word_not_upper).
  rewrite firstn_app, Nat.sub_diag, firstn_all. cbn [firstn].
  rewrite app_nil_r.
  assert (B : bounded_run prev (s ++ post) (List.length s) = true);
    [|now rewrite B].
  unfold bounded_run. apply andb_true_iff. split; [apply andb_true_iff; split|].
  - unfold at_boundary. rewrite Hb.
    destruct s as [|x s]; [simpl in Hl; lia|]. cbn [app word_after].
    cbn [forallb] in Hu. apply andb_true_iff in Hu as [Hx _].
    now rewrite (upper_is_word x Hx).
  - apply Nat.leb_le. lia.
  - rewrite skipn_app, Nat.sub_diag, skipn_all. cbn [skipn app].
    destruct (exists_last (l := s)) as (s' & c & ->);
      [intros ->; simpl in Hl; lia|].
    rewrite prev_after_app_last. unfold at_boundary. rewrite Ha.
    cbn [word_before].
    rewrite forallb_app in Hu. apply andb_true_iff in Hu as [_ Hc].
    cbn [forallb] in Hc. rewrite andb_true_r in Hc.
    now rewrite (upper_is_word c Hc).
Qed.

Lemma first_surviving_run_leading (s post : pystr) :
  (1 <= List.length s <= 5)%nat ->
  forallb is_upper_latin s = true ->
  survives s = true ->
  word_after post = false ->
  first_surviving_run (s ++ post) = Some s.
Proof.
  intros Hl Hu Hs Ha. unfold first_surviving_run.
  destruct s as [|c s]; [simpl in Hl; lia|].
  change ((c :: s) ++ post) with (c :: (s ++ post)).
  cbn [word_bounded_runs]. change (c :: (s ++ post)) with ((c :: s) ++ post).
  rewrite (run_from_leading None (c :: s) post Hl Hu eq_refl Ha).
  cbn [find]. now rewrite Hs.
Qed.

Lemma survives_iff (s : pystr) :
  survives s = true <-> ~ stoplisted s /\ (2 <= List.length s)%nat.
Proof.
  rewrite <- keeps_survives. unfold keeps. rewrite andb_true_iff, Nat.leb_le.
  split; intros [Hc Hl]; (split; [|exact Hl]).
  - intros Hs. apply is_common_word_In in Hs. rewrite Hs in Hc. discriminate.
  - destruct (is_common_word s) eqn:E; [|reflexivity].
    apply is_common_word_In in E. contradiction.
Qed.

(** First match wins: a text that begins with a word of 2 to 5 uppercase
    letters that is not stoplisted yields that word, whatever follows it. *)
Theorem extract_stock_symbol_leading_word (s post : pystr) :
  (2 <= List.length s <= 5)%nat ->
  forallb is_upper_latin s = true ->
  ~ stoplisted s ->
  word_after post = false ->
  extract_stock_symbol (s ++ post) = Some s.
Proof.
  intros Hl Hu Hs Ha. rewrite extract_stock_symbol_find_run.
  apply first_surviving_run_leading; try assumption; [lia|].
  apply survives_iff. split; [exact Hs|lia].
Qed.

(** The extractor is idempotent: run on a symbol it returned, it returns
    that symbol. *)
Theorem extract_stock_symbol_idempotent (text s : pystr) :
  extract_stock_symbol text = Some s ->
  extract_stock_symbol s = Some s.
Proof.
  intros H. pose proof (extract_stock_symbol_keeps text s H) as K.
  rewrite keeps_survives in K.
  rewrite extract_stock_symbol_find_run in H |- *.
  unfold first_surviving_run in H. apply find_some in H as [Hin _].
  apply word_bounded_runs_slices in Hin as (_ & Hl & Hu).
  rewrite <- (app_nil_r s) at 1.
  now apply first_surviving_run_leading.
Qed.

(** ** News client: bounds and shapes *)

Lemma comprehension_length {A B : Type} (f : A -> result B) (xs : list A)
  (ys : list B) :
  comprehension f xs = inr ys -> List.length ys = List.length xs.
Proof.
  revert ys; induction xs as [|x xs IH]; intros ys H; cbn [comprehension] in H.
  - now injection H as <-.
  - destruct (f x) as [e|y]; [discriminate|].
    destruct (comprehension f xs) as [e|ys']; [discriminate|].
    injection H as <-. cbn [List.length]. f_equal. now apply IH.
Qed.

Lemma slice_to_bound {A : Type} (xs : list A) (n : Z) :
  0 <= n -> Z.of_nat (List.length (slice_to xs n)) <= n.
Proof.
  intros Hn. unfold slice_to. destruct (Z.ltb_spec n 0); [lia|].
  rewrite length_firstn. lia.
Qed.

Lemma sliced_items_bound (v a : json) (n : Z) (items : list json) :
  0 <= n -> json_slice_to v n = inr a -> json_iter a = inr items ->
  Z.of_nat (List.length items) <= n.
Proof.
  intros Hn Hs Hi.
  destruct v as [[| | | |str]|xs|fields]; cbn [json_slice_to] in Hs;
    try discriminate; injection Hs as <-; cbn [json_iter] in Hi;
    injection Hi as <-.
  - rewrite length_map. now apply slice_to_bound.
  - now apply slice_to_bound.
Qed.

Lemma get_news_headlines_length
  (w : World) (ticker : pystr) (max_articles : Z) (l l' : list log_record)
  (titles : list json) :
  0 <= max_articles ->
  get_news_headlines w ticker max_articles l = (inr titles, l') ->
  Z.of_nat (List.length titles) <= max_articles.
Proof.
  intros Hn. rewrite get_news_headlines_unfold.
  destruct (rbind (news_request w ticker)
              (fun r => titles_of_response r max_articles)) as [e|ts] eqn:R.
  - destruct (is_RequestException e); [|discriminate].
    intros H. injection H as <- _. cbn [List.length]. lia.
  - intros H. injection H as <- _.
    destruct (news_request w ticker) as [e|r]; [discriminate|].
    cbn [rbind] in R. unfold titles_of_response in R.
    destruct (raise_for_status r) as [e|[]]; [discriminate|]. cbn [rbind] in R.
    destruct (response_json r) as [e|data]; [discriminate|]. cbn [rbind] in R.
    destruct (json_get data (u "articles") (JList [])) as [e|all];
      [discriminate|]. cbn [rbind] in R.
    destruct (json_slice_to all max_articles) as [e|a] eqn:S; [discriminate|].
    cbn [rbind] in R.
    destruct (json_iter a) as [e|items] eqn:I; [discriminate|]. cbn [rbind] in R.
    rewrite (comprehension_length _ _ _ R).
    exact (sliced_items_bound all a max_articles items Hn S I).
Qed.

(** Whatever the provider answers, also a body of an unexpected shape,
    a list returned for a limit [max_articles >= 0] has at most
    [max_articles] items. *)
Theorem get_news_headlines_at_most
  (w : World) (ticker : pystr) (max_articles : Z) (l l' : list log_record)
  (titles : list json) :
  0 <= max_articles ->
  get_news_headlines w ticker max_articles l = (inr titles, l') ->
  Z.of_nat (List.length titles) <= max_articles.
Proof.
  intros Hn H. exact (get_news_headlines_length w ticker _ l l' titles Hn H).
Qed.

(** A negative limit [-k] is Python's slice [[:-k]]: the titles of all the
    articles but the last [k]. *)
Theorem get_news_headlines_negative_limit
  (w : World) (ticker : pystr) (max_articles : Z) (r : Response)
  (fields : list (pystr * json)) (articles titles : list json)
  (l : list log_record) :
  max_articles < 0 ->
  news_request w ticker = inr r ->
  raise_for_status r = inr tt ->
  decoded r = inr (JDict fields) ->
  lookup (u "articles") fields = Some (JList articles) ->
  map title_of
    (firstn (List.length articles - Z.to_nat (- max_articles)) articles)
  = map Some titles ->
  get_news_headlines w ticker max_articles l = (inr titles, l).
Proof.
  intros Hn Hreq Hs Hd Ha Ht.
  rewrite get_news_headlines_unfold, Hreq.
  cbn [rbind]. unfold titles_of_response. rewrite Hs. cbn [rbind].
  unfold response_json. rewrite Hd. cbn [rbind json_get]. rewrite Ha.
  cbn [rbind json_slice_to json_iter]. unfold slice_to.
  destruct (Z.ltb_spec max_articles 0); [|lia].
  now rewrite (comprehension_titles _ titles Ht).
Qed.

(** A body that is JSON but no object has no [get]: the [AttributeError]
    reaches the caller and nothing is logged. *)
Theorem get_news_headlines_body_not_object
  (w : World) (ticker : pystr) (max_articles : Z) (r : Response) (doc : json)
  (l : list log_record) :
  news_request w ticker = inr r ->
  raise_for_status r = inr tt ->
  decoded r = inr doc ->
  (forall fields, doc <> JDict fields) ->
  get_news_headlines w ticker max_articles l
  = (inl (BuiltinError AttributeError
            (u "'" ++ json_type_name doc ++ u "' object has no attribute 'get'")),
     l).
Proof.
  intros Hreq Hs Hd Hn.
  rewrite get_news_headlines_unfold, Hreq.
  cbn [rbind]. unfold titles_of_response. rewrite Hs. cbn [rbind].
  unfold response_json. rewrite Hd. cbn [rbind].
  destruct doc as [v|xs|fields]; [reflexivity|reflexivity|].
  now destruct (Hn fields).
Qed.

(** ** Market data client: what the guard excludes *)

Lemma int_to_float_100 : int_to_float 100 = inr (Float64.of_Z 100).
Proof. reflexivity. Qed.

Lemma percent_of_quotient (q : f64) :
  rbind (py_mul (PFloat q) (PInt 100)) (fun p => py_round_val p 2)
  = inr (PFloat (py_round (f64_mul q (Float64.of_Z 100)) 2)).
Proof.
  cbn [py_mul as_number]. rewrite int_to_float_100. reflexivity.
Qed.

(** A true division that returns, returns a float. *)
Lemma py_truediv_float (a b q : pyval) :
  py_truediv a b = inr q -> exists x, q = PFloat x.
Proof.
  unfold py_truediv, float_truediv.
  repeat match goal with
         | |- context [match ?t with _ => _ end] => destruct t
         end;
    intros H; try discriminate; injection H as <-; now eexists.
Qed.

(** When the formula gives a value, the value is a float. *)
Lemma change_formula_float (c p v : pyval) :
  change_formula c p = inr v -> exists x, v = PFloat x.
Proof.
  unfold change_formula.
  destruct (py_sub c p) as [e|d]; [discriminate|]. cbn [rbind].
  destruct (py_truediv d p) as [e|q] eqn:Q; [discriminate|]. cbn [rbind].
  destruct (py_truediv_float d p q Q) as [x ->].
  rewrite percent_of_quotient. intros H. injection H as <-. now eexists.
Qed.

(** *** An integer that is not zero converts to a float that is not zero *)

Lemma digits2_pos_bounds (p : positive) :
  2 ^ (Zpos (digits2_pos p) - 1) <= Zpos p < 2 ^ Zpos (digits2_pos p).
Proof.
  induction p as [p IH|p IH|]; cbn [digits2_pos].
  - rewrite Pos2Z.inj_succ.
    replace (Z.succ (Zpos (digits2_pos p)) - 1) with (Z.succ (Zpos (digits2_pos p) - 1)) by lia.
    rewrite !Z.pow_succ_r by lia. lia.
  - rewrite Pos2Z.inj_succ.
    replace (Z.succ (Zpos (digits2_pos p)) - 1) with (Z.succ (Zpos (digits2_pos p) - 1)) by lia.
    rewrite !Z.pow_succ_r by lia. lia.
  - cbn. lia.
Qed.

Lemma Zdigits2_bounds (m : Z) :
  1 <= m -> 2 ^ (Zdigits2 m - 1) <= m < 2 ^ Zdigits2 m.
Proof.
  destruct m as [|p|p]; try lia. intros _. apply digits2_pos_bounds.
Qed.

Lemma Zdigits2_pos (m : Z) : 1 <= m -> 1 <= Zdigits2 m.
Proof. destruct m as [|p|p]; cbn; lia. Qed.

Lemma shr_1_m (mrs : shr_record) :
  0 <= shr_m mrs -> shr_m (shr_1 mrs) = shr_m mrs / 2.
Proof.
  destruct mrs as [m r t]. cbn [shr_m]. intros Hm.
  rewrite <- Z.div2_div.
  destruct m as [|[p|p|]|p]; try lia; reflexivity.
Qed.

Lemma iter_shr_1_m (p : positive) (mrs : shr_record) :
  0 <= shr_m mrs ->
  shr_m (iter_pos shr_1 p mrs) = shr_m mrs / 2 ^ Zpos p.
Proof.
  revert mrs; induction p as [p IH|p IH|]; intros mrs Hm; cbn [iter_pos];
    try assert (Pp : 0 < 2 ^ Zpos p) by (apply Z.pow_pos_nonneg; lia).
  - assert (H1 : 0 <= shr_m (shr_1 mrs)).
    { rewrite shr_1_m by exact Hm. apply Z.div_pos; lia. }
    assert (H2 : 0 <= shr_m (iter_pos shr_1 p (shr_1 mrs))).
    { rewrite IH by exact H1. apply Z.div_pos; [exact H1|]. apply Z.pow_pos_nonneg; lia. }
    rewrite IH by exact H2. rewrite IH by exact H1. rewrite shr_1_m by exact Hm.
    rewrite !Z.div_div by lia.
    f_equal.
    replace (Zpos p~1) with (Z.succ (Zpos p + Zpos p)) by lia.
    rewrite Z.pow_succ_r, Z.pow_add_r by lia. ring.
  - assert (H1 : 0 <= shr_m (iter_pos shr_1 p mrs)).
    { rewrite IH by exact Hm. apply Z.div_pos; [exact Hm|]. apply Z.pow_pos_nonneg; lia. }
    rewrite IH by exact H1. rewrite IH by exact Hm.
    rewrite Z.div_div by lia.
    f_equal.
    replace (Zpos p~0) with (Zpos p + Zpos p) by lia.
    now rewrite Z.pow_add_r by lia.
  - rewrite shr_1_m by exact Hm. reflexivity.
Qed.

Lemma shr_record_of_loc_m (m : Z) (l : location) :
  shr_m (shr_record_of_loc m l) = m.
Proof. destruct l as [|[ | | ]]; reflexivity. Qed.

(** Shifting a mantissa down to its format keeps it positive when the
    value is not below the smallest subnormal. *)
Lemma shr_fexp_positive (m e : Z) (l : location) :
  1 <= m -> -1073 <= Zdigits2 m + e ->
  1 <= shr_m (fst (shr_fexp prec emax m e l))
  /\ -1073 <= Zdigits2 (shr_m (fst (shr_fexp prec emax m e l)))
               + snd (shr_fexp prec emax m e l).
Proof.
  intros Hm He. unfold shr_fexp, shr.
  pose proof (Zdigits2_bounds m Hm) as [Hlo Hhi].
  pose proof (Zdigits2_pos m Hm) as Hd.
  set (d := Zdigits2 m) in *.
  destruct (fexp prec emax (d + e) - e) as [|n|n] eqn:N; cbn [fst snd];
    rewrite ?shr_record_of_loc_m; try (split; [exact Hm|exact He]).
  rewrite iter_shr_1_m by (rewrite shr_record_of_loc_m; lia).
  rewrite shr_record_of_loc_m.
  assert (Hn : Zpos n <= d - 1).
  { unfold fexp, SpecFloat.emin, prec, emax in N. lia. }
  assert (Hq : 2 ^ (d - 1 - Zpos n) <= m / 2 ^ Zpos n).
  { apply Z.div_le_lower_bound; [apply Z.pow_pos_nonneg; lia|].
    rewrite <- Z.pow_add_r by lia.
    replace (Zpos n + (d - 1 - Zpos n)) with (d - 1) by lia. exact Hlo. }
  assert (H1 : 1 <= m / 2 ^ Zpos n).
  { assert (0 < 2 ^ (d - 1 - Zpos n)) by (apply Z.pow_pos_nonneg; lia). lia. }
  split; [exact H1|].
  pose proof (Zdigits2_bounds _ H1) as [_ Hhi'].
  assert (d - 1 - Zpos n < Zdigits2 (m / 2 ^ Zpos n)).
  { apply (Z.pow_lt_mono_r_iff 2); try lia.
    pose proof (Zdigits2_pos _ H1). lia. }
  lia.
Qed.

Lemma round_nearest_even_ge (m : Z) (l : location) :
  m <= round_nearest_even m l.
Proof.
  destruct l as [|[ | | ]]; cbn [round_nearest_even]; try lia.
  destruct (Z.even m); lia.
Qed.

Lemma Zdigits2_mono (m n : Z) : 1 <= m -> m <= n -> Zdigits2 m <= Zdigits2 n.
Proof.
  intros Hm Hn.
  pose proof (Zdigits2_bounds m Hm) as [Hlo _].
  pose proof (Zdigits2_bounds n ltac:(lia)) as [_ Hhi].
  pose proof (Zdigits2_pos n ltac:(lia)).
  assert (Zdigits2 m - 1 < Zdigits2 n); [|lia].
  apply (Z.pow_lt_mono_r_iff 2); lia.
Qed.

(** Rounding a positive mantissa whose value is not below the smallest
    subnormal never gives a zero. *)
Lemma binary_round_aux_not_zero (s : bool) (m : positive) (e : Z) (l : location) :
  -1073 <= Zdigits2 (Zpos m) + e ->
  forall s', binary_round_aux prec emax s (Zpos m) e l <> S754_zero s'.
Proof.
  intros He s'. unfold binary_round_aux.
  pose proof (shr_fexp_positive (Zpos m) e l ltac:(lia) He) as [H1 H2].
  destruct (shr_fexp prec emax (Zpos m) e l) as [mrs' e'].
  cbn [fst snd] in H1, H2.
  set (m1 := round_nearest_even (shr_m mrs') (loc_of_shr_record mrs')).
  assert (Hm1 : shr_m mrs' <= m1) by apply round_nearest_even_ge.
  pose proof (Zdigits2_mono _ _ H1 Hm1) as Hd.
  pose proof (shr_fexp_positive m1 e' loc_Exact ltac:(lia) ltac:(lia)) as [H3 _].
  destruct (shr_fexp prec emax m1 e' loc_Exact) as [mrs'' e''].
  cbn [fst] in H3.
  destruct (shr_m mrs'') as [|q|q]; try lia.
  now destruct (e'' <=? emax - prec).
Qed.

Lemma of_Z_not_zero (k : Z) (s : bool) : k <> 0 -> Float64.of_Z k <> S754_zero s.
Proof.
  intros Hk. unfold Float64.of_Z, binary_normalize.
  assert (R : forall sx m, binary_round prec emax sx m 0 <> S754_zero s).
  { intros sx m. unfold binary_round, shl_align.
    destruct (fexp prec emax (Zpos (digits2_pos m) + 0) - 0) as [|n|n] eqn:N;
      apply binary_round_aux_not_zero.
    - cbn [Zdigits2]. lia.
    - cbn [Zdigits2]. lia.
    - pose proof (Zdigits2_pos (Zpos (Pos.iter xO m n)) ltac:(lia)).
      unfold fexp, SpecFloat.emin, prec, emax in *. lia. }
  destruct k as [|m|m]; [lia| |]; apply R.
Qed.

Lemma of_Z_truthy (k : Z) : k <> 0 -> f64_eqb (Float64.of_Z k) zero = false.
Proof.
  intros Hk. pose proof (of_Z_not_zero k) as N.
  destruct (Float64.of_Z k) as [s|s| |s m e] eqn:E; try reflexivity;
    try (now destruct s).
  now destruct (N s Hk).
Qed.

(** ** Market data client: errors and invariants *)

Lemma int_to_float_outcome (n : Z) :
  match int_to_float n with
  | inr x => x = Float64.of_Z n
  | inl e => type_or_overflow e
  end.
Proof.
  unfold int_to_float. destruct (is_finite (Float64.of_Z n)); [reflexivity|].
  eexists. now right.
Qed.

Lemma unsupported_type_error (op : string) (a b : pyval) :
  type_or_overflow (unsupported op a b).
Proof. eexists. left. reflexivity. Qed.

Lemma overflow_error (msg : pystr) :
  type_or_overflow (BuiltinError OverflowError msg).
Proof. eexists. right. reflexivity. Qed.

Lemma py_sub_outcome (c p : pyval) :
  match py_sub c p with
  | inr d => exists n, d = number_val n
  | inl e => type_or_overflow e
  end.
Proof.
  unfold py_sub.
  destruct (as_number c) as [[m|x]|]; destruct (as_number p) as [[n|y]|];
    try apply unsupported_type_error.
  - now exists (NInt (m - n)).
  - pose proof (int_to_float_outcome m) as F.
    destruct (int_to_float m) as [e|z]; [exact F|].
    now exists (NFloat (f64_sub z y)).
  - pose proof (int_to_float_outcome n) as F.
    destruct (int_to_float n) as [e|z]; [exact F|].
    now exists (NFloat (f64_sub x z)).
  - now exists (NFloat (f64_sub x y)).
Qed.

(** Past the guard the divisor is not zero: the division returns, or
    fails on the type or the size of an operand. *)
Lemma py_truediv_guarded (d : number) (p : pyval) :
  truthy p = true ->
  match py_truediv (number_val d) p with
  | inr _ => True
  | inl e => type_or_overflow e
  end.
Proof.
  intros Hp. unfold py_truediv, float_truediv.
  destruct p as [|b|k|y|str]; cbn [truthy] in Hp; try discriminate.
  - subst b. destruct d as [n|x]; cbn [number_val as_number].
    + destruct (is_finite (of_ratio n 1)); [exact I|apply overflow_error].
    + exact I.
  - assert (Hk : k <> 0) by (intros ->; discriminate).
    destruct d as [n|x]; cbn [number_val as_number].
    + destruct k as [|q|q]; [lia| |];
        match goal with |- context [is_finite ?t] => destruct (is_finite t) end;
        first [exact I | apply overflow_error].
    + pose proof (int_to_float_outcome k) as F.
      destruct (int_to_float k) as [e|z]; [exact F|]. subst z.
      now rewrite (of_Z_truthy k Hk).
  - apply negb_true_iff in Hp.
    destruct d as [n|x]; cbn [number_val as_number].
    + pose proof (int_to_float_outcome n) as F.
      destruct (int_to_float n) as [e|z]; [exact F|]. now rewrite Hp.
    + now rewrite Hp.
  - destruct d as [n|x]; cbn [number_val as_number];
      apply unsupported_type_error.
Qed.

Lemma change_formula_errors (c p : pyval) (e : exn) :
  truthy p = true -> change_formula c p = inl e -> type_or_overflow e.
Proof.
  intros Hp. unfold change_formula.
  pose proof (py_sub_outcome c p) as S.
  destruct (py_sub c p) as [e'|d]; cbn [rbind].
  - intros H. now injection H as <-.
  - destruct S as [n ->].
    pose proof (py_truediv_guarded n p Hp) as D.
    destruct (py_truediv (number_val n) p) as [e'|q] eqn:Q; cbn [rbind].
    + intros H. now injection H as <-.
    + destruct (py_truediv_float _ _ _ Q) as [x ->].
      rewrite percent_of_quotient. discriminate.
Qed.

(** The guard excludes a zero divisor: an error of the arithmetic that
    [get_stock_price_data] absorbs is a [TypeError] or an [OverflowError],
    never a [ZeroDivisionError]. *)
Theorem get_stock_price_data_never_divides_by_zero
  (w : World) (ticker : pystr) (info : list (pystr * pyval)) (e : exn) :
  yf_Ticker_info w ticker = inr info ->
  provider_error w ticker e ->
  type_or_overflow e
  /\ forall msg, e <> BuiltinError ZeroDivisionError msg.
Proof.
  intros Hi P.
  assert (T : type_or_overflow e).
  { destruct P as [e H | info' e H Hc Hp Hf]; [congruence|].
    exact (change_formula_errors _ _ e Hp Hf). }
  split; [exact T|].
  intros msg ->. destruct T as [m [H|H]]; discriminate.
Qed.

(** The quote returned: the change is null or a float, and a change that
    is not null comes with a price that is not null nor zero. *)
Lemma get_stock_price_data_invariant
  (w : World) (ticker : pystr) (l l' : list log_record) (d : price_data) :
  get_stock_price_data w ticker l = (inr d, l') ->
  (pd_change_percentage d = PNone
   \/ exists x, pd_change_percentage d = PFloat x)
  /\ (pd_change_percentage d <> PNone -> truthy (pd_price d) = true).
Proof.
  rewrite get_stock_price_data_unfold.
  destruct (yf_Ticker_info w ticker) as [e|info].
  { intros H. injection H as <- _. cbn. split; [now left|congruence]. }
  cbv zeta.
  destruct (truthy (info_get info (u "regularMarketPrice"))) eqn:C;
    cbn [andb].
  2:{ intros H. injection H as <- _. cbn. split; [now left|congruence]. }
  destruct (truthy (info_get info (u "regularMarketPreviousClose"))
            && ne_zero (info_get info (u "regularMarketPreviousClose"))).
  2:{ intros H. injection H as <- _. cbn. split; [now left|congruence]. }
  destruct (change_formula _ _) as [e|v] eqn:F.
  { intros H. injection H as <- _. cbn. split; [now left|congruence]. }
  intros H. injection H as <- _. cbn [pd_change_percentage pd_price].
  split; [right; exact (change_formula_float _ _ _ F)|now intros _].
Qed.

Lemma f64_sub_diag (s : bool) (m : positive) (e : Z) :
  f64_sub (S754_finite s m e) (S754_finite s m e) = S754_zero false.
Proof.
  unfold f64_sub, SFsub. now rewrite Z.sub_diag.
Qed.

Lemma change_formula_unchanged_float (s : bool) (m : positive) (e : Z) :
  change_formula (PFloat (S754_finite s m e)) (PFloat (S754_finite s m e))
  = inr (PFloat (S754_zero s)).
Proof.
  rewrite float_change_formula by (now destruct s).
  rewrite f64_sub_diag. now destruct s.
Qed.

Lemma change_formula_unchanged_int (n : Z) :
  n <> 0 ->
  change_formula (PInt n) (PInt n) = inr (PFloat (S754_zero (n <? 0))).
Proof.
  intros Hn. unfold change_formula. cbn [py_sub as_number rbind].
  rewrite Z.sub_diag. unfold py_truediv. cbn [as_number].
  destruct n as [|q|q]; [lia| |]; reflexivity.
Qed.

(** A price that has not moved since the previous close gives a zero
    change with the sign of the price: 0.0, which the prompt shows as
    "0.0%", and for a negative price -0.0, shown as "-0.0%". *)
Theorem get_stock_price_data_unchanged
  (w : World) (ticker : pystr) (info : list (pystr * pyval)) (v : pyval)
  (l : list log_record) :
  yf_Ticker_info w ticker = inr info ->
  info_get info (u "regularMarketPrice") = v ->
  info_get info (u "regularMarketPreviousClose") = v ->
  (exists n, n <> 0 /\ v = PInt n)
  \/ (exists s m e, v = PFloat (S754_finite s m e)) ->
  get_stock_price_data w ticker l
  = (inr {| pd_price := v;
            pd_change_percentage := PFloat (S754_zero (negative v)) |}, l)
  /\ (forall sym headlines,
        change_str {| symbol := sym; price := v;
                      change_percentage := PFloat (S754_zero (negative v));
                      news := headlines |}
        = if negative v then u "-0.0%" else u "0.0%").
Proof.
  intros Hi Hc Hp Hv. split; [|now destruct (negative v)].
  rewrite get_stock_price_data_unfold, Hi. cbv zeta. rewrite Hc, Hp.
  destruct Hv as [(n & Hn & ->) | (s & m & e & ->)].
  - rewrite (change_formula_unchanged_int n Hn).
    cbn [truthy ne_zero negative]. destruct (Z.eqb_spec n 0); [lia|].
    reflexivity.
  - rewrite change_formula_unchanged_float. now destruct s.
Qed.

(** ** Analysis prompt: headlines *)

Lemma contains_trans (a b c : pystr) :
  contains a b -> contains b c -> contains a c.
Proof.
  intros (p1 & q1 & ->) (p2 & q2 & ->). exists (p2 ++ p1), (q1 ++ q2).
  now rewrite <- !app_assoc.
Qed.

Lemma join_contains (sep h : pystr) (hs : list pystr) :
  In h hs -> contains h (PyStr.join sep hs).
Proof.
  induction hs as [|x hs IH]; [contradiction|].
  intros [->|Hin].
  - destruct hs as [|y hs]; cbn [PyStr.join].
    + exists [], []. now rewrite app_nil_r.
    + apply contains_here.
  - destruct hs as [|y hs]; [contradiction|].
    change (PyStr.join sep (x :: y :: hs))
      with (x ++ sep ++ PyStr.join sep (y :: hs)).
    apply contains_later, contains_later. now apply IH.
Qed.

Lemma prompt_text_contains_news (d : stock_data) (news_s : pystr) :
  contains news_s (prompt_text d news_s).
Proof.
  unfold prompt_text. repeat first [apply contains_here | apply contains_later].
Qed.

(** Every headline of the snapshot appears in the prompt. *)
Theorem build_analysis_prompt_shows_every_headline
  (sym : pystr) (pr ch : pyval) (headlines : list pystr) (h : pystr) :
  In h headlines ->
  exists prompt,
    build_analysis_prompt
      {| symbol := sym; price := pr; change_percentage := ch;
         news := headline_items headlines |} = inr prompt
    /\ contains h prompt.
Proof.
  intros Hin. eexists. unfold build_analysis_prompt.
  rewrite news_str_headlines. cbn [rbind]. split; [reflexivity|].
  apply (contains_trans h (headlines_text headlines));
    [|apply prompt_text_contains_news].
  destruct headlines as [|x hs]; [contradiction|].
  now apply join_contains.
Qed.

Lemma join_items_outcome (items : list json) (i : Z) :
  match join_items i items with
  | inr _ => forallb is_str_item items = true
  | inl e =>
      forallb is_str_item items = false
      /\ exists msg, e = BuiltinError TypeError msg
  end.
Proof.
  revert i; induction items as [|v items IH]; intros i; [reflexivity|].
  cbn [join_items forallb].
  destruct v as [[| | | |str]|xs|fields]; cbn [is_str_item andb];
    try (split; [reflexivity|now eexists]).
  specialize (IH (i + 1)). now destruct (join_items (i + 1) items).
Qed.

(** The prompt is built exactly when every headline is a string;
    otherwise [join] raises a [TypeError]. *)
Theorem build_analysis_prompt_needs_string_headlines (d : stock_data) :
  match build_analysis_prompt d with
  | inr _ => forallb is_str_item (news d) = true
  | inl e =>
      forallb is_str_item (news d) = false
      /\ exists msg, e = BuiltinError TypeError msg
  end.
Proof.
  unfold build_analysis_prompt, news_str.
  destruct (news d) as [|v items] eqn:N; [reflexivity|].
  unfold py_join. pose proof (join_items_outcome (v :: items) 0) as J.
  now destruct (join_items 0 (v :: items)).
Qed.

(** ** Snapshot of one stock: invariants and degraded data *)

Lemma get_stock_price_data_returns
  (w : World) (ticker : pystr) (l : list log_record) :
  exists d l', get_stock_price_data w ticker l = (inr d, l').
Proof.
  rewrite get_stock_price_data_unfold.
  destruct (yf_Ticker_info w ticker) as [e|info]; [now eauto|].
  cbv zeta. destruct (truthy _ && truthy _ && ne_zero _); [|now eauto].
  destruct (change_formula _ _); now eauto.
Qed.

(** [analyze_single_stock] returns on every input and never raises.  The
    market-data client returns its price data, and then either the news
    client returns its headlines and the result is the snapshot of the
    symbol, that price data and those headlines, or the news client raises
    and the result is [None], the log naming the symbol and the error. *)
Theorem analyze_single_stock_returns
  (w : World) (stock_symbol : pystr) (l : list log_record) :
  exists (d : price_data) (l1 : list log_record),
    get_stock_price_data w stock_symbol l = (inr d, l1)
    /\ ((exists titles l2,
           get_news_headlines w stock_symbol default_max_articles l1
           = (inr titles, l2)
           /\ analyze_single_stock w stock_symbol l
              = (inr (Some {| symbol := stock_symbol;
                              price := pd_price d;
                              change_percentage := pd_change_percentage d;
                              news := titles |}), l2))
        \/ (exists e,
              news_raises w stock_symbol e
              /\ get_news_headlines w stock_symbol default_max_articles l1
                 = (inl e, l1)
              /\ analyze_single_stock w stock_symbol l
                 = (inr None,
                    l1 ++ [LogRecord ERROR
                             (u "Failed to analyze stock " ++ stock_symbol
                                ++ u ": " ++ exn_str e)]))).
Proof.
  destruct (get_stock_price_data_returns w stock_symbol l) as (d & l1 & P).
  exists d, l1. split; [exact P|].
  unfold analyze_single_stock, try_except, bind, ret, logger_error,
    is_Exception.
  rewrite P.
  pose proof (get_news_headlines_unfold w stock_symbol default_max_articles l1)
    as N.
  destruct (rbind (news_request w stock_symbol)
              (fun r => titles_of_response r default_max_articles))
    as [e|titles] eqn:R.
  - destruct (is_RequestException e) eqn:Q.
    + left. exists [], (l1 ++ [news_failure_log stock_symbol e]).
      rewrite N. now split.
    + right. exists e. rewrite N. now repeat split.
  - left. exists titles, l1. rewrite N. now split.
Qed.

(** The snapshot built: it carries the symbol asked for and at most 3
    headlines, its change is null or a float, and a change that is not
    null comes with a price that is not null nor zero. *)
Theorem analyze_single_stock_snapshot
  (w : World) (stock_symbol : pystr) (l l' : list log_record)
  (data : stock_data) :
  analyze_single_stock w stock_symbol l = (inr (Some data), l') ->
  symbol data = stock_symbol
  /\ (List.length (news data) <= 3)%nat
  /\ (change_percentage data = PNone
      \/ exists x, change_percentage data = PFloat x)
  /\ (change_percentage data <> PNone -> truthy (price data) = true).
Proof.
  unfold analyze_single_stock, try_except, bind, ret, logger_error, is_Exception.
  destruct (get_stock_price_data w stock_symbol l) as [[e|d] l1] eqn:P;
    [discriminate|].
  destruct (get_news_headlines w stock_symbol default_max_articles l1)
    as [[e|titles] l2] eqn:N; [discriminate|].
  intros H. injection H as <- _. cbn [symbol news change_percentage price].
  destruct (get_stock_price_data_invariant _ _ _ _ _ P) as [Hc Hp].
  assert (H0 : 0 <= default_max_articles) by (unfold default_max_articles; lia).
  pose proof (get_news_headlines_length w stock_symbol default_max_articles
                l1 l2 titles H0 N) as Hl.
  unfold default_max_articles in Hl.
  repeat split; try assumption. lia.
Qed.

Lemma fetch_failure_gives_no_headlines
  (w : World) (ticker : pystr) (n : Z) (e : exn) (l : list log_record) :
  fetch_failure w ticker e ->
  get_news_headlines w ticker n l = (inr [], l ++ [news_failure_log ticker e]).
Proof.
  intros F. rewrite get_news_headlines_unfold.
  destruct F as [k msg H | r e H Hs He | r msg H Hs Hd]; rewrite H;
    cbn [rbind]; unfold titles_of_response.
  - reflexivity.
  - rewrite He. cbn [rbind]. now rewrite (raise_for_status_error r e He).
  - rewrite Hs. cbn [rbind]. unfold response_json. rewrite Hd. reflexivity.
Qed.

(** Data failures degrade the snapshot and do not fail it: when the
    market-data provider raises and the news fetch fails, the snapshot has
    no price, no change and no headline, both failures are logged, and the
    prompt says "N/A", "N/A" and "No recent news". *)
Theorem analyze_single_stock_degrades
  (w : World) (stock_symbol : pystr) (e1 e2 : exn) (l : list log_record) :
  yf_Ticker_info w stock_symbol = inl e1 ->
  fetch_failure w stock_symbol e2 ->
  let data := {| symbol := stock_symbol; price := PNone;
                 change_percentage := PNone; news := [] |} in
  analyze_single_stock w stock_symbol l
  = (inr (Some data),
     l ++ [stock_failure_log stock_symbol e1; news_failure_log stock_symbol e2])
  /\ exists prompt,
      build_analysis_prompt data = inr prompt
      /\ contains (u "Current Price: N/A" ++ nl) prompt
      /\ contains (u "Daily Change: N/A" ++ nl) prompt
      /\ contains (u "Recent News: No recent news" ++ nl) prompt.
Proof.
  intros P F data. split.
  - unfold analyze_single_stock, try_except, bind, ret.
    rewrite get_stock_price_data_unfold, P.
    rewrite (fetch_failure_gives_no_headlines w stock_symbol _ e2 _ F).
    rewrite <- app_assoc. reflexivity.
  - eexists. split; [reflexivity|].
    unfold prompt_text, price_str, change_str.
    cbn [price change_percentage truthy is_not_None data].
    repeat split;
      repeat first [ apply contains_here3 | apply contains_later
                   | apply (contains_here3 _ [] _) ].
Qed.

(** ** The [/stock] route: success, failure, log *)

Lemma stock_body_unfold (w : World) (l : list log_record) :
  stock_body w l
  = match discovery_call w with
    | inl e =>
        (inl e,
         (l ++ [discovering])
           ++ [LogRecord ERROR
                 (u "Failed to get AI stock discovery: " ++ exn_str e)])
    | inr None =>
        (inl (HTTPException 500 (u "Failed to discover stocks")),
         l ++ [discovering])
    | inr (Some d) =>
        match extract_stock_symbol d with
        | None | Some [] =>
            (inl (HTTPException 500 (u "Failed to discover any stocks")),
             l ++ [discovering])
        | Some sym =>
            match analyze_single_stock w sym
                    ((l ++ [discovering]) ++ [discovered sym]) with
            | (inl e, l1) => (inl e, l1)
            | (inr None, l1) =>
                (inl (HTTPException 500
                        (u "Failed to analyze the discovered stock")), l1)
            | (inr (Some data), l1) =>
                match build_analysis_prompt data with
                | inl e => (inl e, l1)
                | inr prompt =>
                    match analysis_call w prompt with
                    | inl e =>
                        (inl e,
                         l1 ++ [LogRecord ERROR
                                  (u "Failed to get AI recommendation: "
                                     ++ exn_str e)])
                    | inr None =>
                        (inl (HTTPException 500
                                (u "Failed to get AI recommendation")), l1)
                    | inr (Some r) =>
                        (render_template w (u "stock.html")
                           (full_analysis d r), l1)
                    end
                end
            end
        end
    end.
Proof.
  unfold stock_body, bind, logger_info, abort, raise, lift, ret, discovering,
    discovered.
  rewrite get_ai_stock_discovery_unfold.
  destruct (discovery_call w) as [e|[d|]]; try reflexivity.
  destruct (extract_stock_symbol d) as [[|c sym]|]; try reflexivity.
  destruct (analyze_single_stock w (c :: sym) _) as [[e|[data|]] l1];
    try reflexivity.
  destruct (build_analysis_prompt data) as [e|prompt]; try reflexivity.
  rewrite get_ai_recommendation_unfold.
  destruct (analysis_call w prompt) as [e|[r|]]; reflexivity.
Qed.

(** A run succeeds exactly when the discovery call returns a text, the
    extractor finds a symbol in it, the snapshot is built, its prompt is
    built, the analysis call returns a text (an empty one will do) and the
    template renders both texts without raising; the page then holds both
    texts and the log ends where the snapshot left it. *)
Theorem stock_succeeds_iff
  (w : World) (l l' : list log_record) (pg : page) :
  stock w l = (inr pg, l')
  <-> exists d sym data prompt r,
        discovery_call w = inr (Some d)
        /\ extract_stock_symbol d = Some sym
        /\ analyze_single_stock w sym (l ++ [discovering; discovered sym])
           = (inr (Some data), l')
        /\ build_analysis_prompt data = inr prompt
        /\ analysis_call w prompt = inr (Some r)
        /\ render_error w (u "stock.html") (full_analysis d r) = None
        /\ pg = {| template := u "stock.html"; ai_pick := full_analysis d r |}.
Proof.
  rewrite stock_unfold, stock_body_unfold. unfold render_template. split.
  - destruct (discovery_call w) as [e|[d|]]; try discriminate.
    destruct (extract_stock_symbol d) as [[|c sym]|] eqn:E; try discriminate.
    rewrite <- app_assoc. cbn [app].
    destruct (analyze_single_stock w (c :: sym) _) as [[e|[data|]] l1] eqn:A;
      try discriminate.
    destruct (build_analysis_prompt data) as [e|prompt] eqn:B; try discriminate.
    destruct (analysis_call w prompt) as [e|[r|]] eqn:R; try discriminate.
    destruct (render_error w _ _) eqn:T; try discriminate.
    intros H. injection H as <- <-.
    exists d, (c :: sym), data, prompt, r. now repeat split.
  - intros (d & sym & data & prompt & r & D & E & A & B & R & T & ->).
    rewrite D, E.
    pose proof (extract_stock_symbol_keeps d sym E) as K.
    unfold keeps in K. apply andb_true_iff in K as [_ K]. apply Nat.leb_le in K.
    destruct sym as [|c sym]; [simpl in K; lia|].
    rewrite <- app_assoc. cbn [app]. rewrite A, B, R, T. reflexivity.
Qed.

(** A news body of an unexpected shape fails the whole request: when the
    news client raises for the symbol found, the route reports the generic
    HTTP 500 and the log names the symbol and the error. *)
Theorem stock_fails_when_news_raises
  (w : World) (l : list log_record) (text sym : pystr) (e : exn) :
  discovery_call w = inr (Some text) ->
  extract_stock_symbol text = Some sym ->
  news_raises w sym e ->
  exists l',
    stock w l = (inl (HTTPException 500 generic_description), l')
    /\ In (LogRecord ERROR
             (u "Failed to analyze stock " ++ sym ++ u ": " ++ exn_str e)) l'.
Proof.
  intros D E [N R]. rewrite stock_unfold, stock_body_unfold, D, E.
  pose proof (extract_stock_symbol_keeps text sym E) as K.
  unfold keeps in K. apply andb_true_iff in K as [_ K]. apply Nat.leb_le in K.
  destruct sym as [|c sym]; [simpl in K; lia|].
  unfold analyze_single_stock, try_except, bind, ret, logger_error, is_Exception.
  destruct (get_stock_price_data_returns w (c :: sym)
              ((l ++ [discovering]) ++ [discovered (c :: sym)]))
    as (d & l1 & ->).
  rewrite get_news_headlines_unfold, N, R.
  eexists. split; [reflexivity|].
  apply in_or_app. left. apply in_or_app. right. now left.
Qed.

Lemma extends_refl (l : list log_record) : extends l l.
Proof. exists []. now rewrite app_nil_r. Qed.

Lemma extends_app (l added : list log_record) : extends l (l ++ added).
Proof. now exists added. Qed.

Lemma extends_trans (a b c : list log_record) :
  extends a b -> extends b c -> extends a c.
Proof.
  intros [x ->] [y ->]. exists (x ++ y). now rewrite app_assoc.
Qed.

Lemma get_stock_price_data_extends
  (w : World) (ticker : pystr) (l l' : list log_record) (r : result price_data) :
  get_stock_price_data w ticker l = (r, l') -> extends l l'.
Proof.
  rewrite get_stock_price_data_unfold.
  destruct (yf_Ticker_info w ticker) as [e|info].
  { intros H. injection H as _ <-. apply extends_app. }
  cbv zeta. destruct (truthy _ && truthy _ && ne_zero _).
  - destruct (change_formula _ _); intros H; injection H as _ <-;
      [apply extends_app|apply extends_refl].
  - intros H. injection H as _ <-. apply extends_refl.
Qed.

Lemma get_news_headlines_extends
  (w : World) (ticker : pystr) (n : Z) (l l' : list log_record)
  (r : result (list json)) :
  get_news_headlines w ticker n l = (r, l') -> extends l l'.
Proof.
  rewrite get_news_headlines_unfold.
  destruct (rbind _ _) as [e|titles].
  - destruct (is_RequestException e); intros H; injection H as _ <-;
      [apply extends_app|apply extends_refl].
  - intros H. injection H as _ <-. apply extends_refl.
Qed.

Lemma analyze_single_stock_extends
  (w : World) (sym : pystr) (l l' : list log_record)
  (r : result (option stock_data)) :
  analyze_single_stock w sym l = (r, l') -> extends l l'.
Proof.
  unfold analyze_single_stock, try_except, bind, ret, logger_error, is_Exception.
  destruct (get_stock_price_data w sym l) as [[e|d] l1] eqn:P.
  { destruct (get_stock_price_data_returns w sym l) as (d & l2 & H).
    rewrite H in P. discriminate. }
  apply get_stock_price_data_extends in P.
  destruct (get_news_headlines w sym default_max_articles l1)
    as [[e|titles] l2] eqn:N; apply get_news_headlines_extends in N;
    intros H; injection H as _ <-.
  - apply (extends_trans _ l1); [exact P|].
    apply (extends_trans _ l2); [exact N|apply extends_app].
  - now apply (extends_trans _ l1).
Qed.

(** The log only grows: a run keeps the records it found, adds
    "Discovering promising stocks..." first, and a run that fails adds
    "Error generating stock recommendation: ..." last. *)
Theorem stock_log_grows
  (w : World) (l l' : list log_record) (r : result page) :
  stock w l = (r, l') ->
  extends (l ++ [LogRecord INFO (u "Discovering promising stocks...")]) l'
  /\ match r with
     | inr _ => True
     | inl _ =>
         exists before cause,
           l' = before
                ++ [LogRecord ERROR
                      (u "Error generating stock recommendation: "
                         ++ exn_str cause)]
     end.
Proof.
  rewrite stock_unfold.
  assert (B : forall r0 l0, stock_body w l = (r0, l0) ->
                            extends (l ++ [discovering]) l0).
  { intros r0 l0. rewrite stock_body_unfold.
    destruct (discovery_call w) as [e|[d|]];
      try (intros H; injection H as _ <-;
           first [apply extends_refl | apply extends_app]).
    destruct (extract_stock_symbol d) as [[|c sym]|];
      try (intros H; injection H as _ <-; apply extends_refl).
    destruct (analyze_single_stock w (c :: sym) _) as [[e|[data|]] l1] eqn:A;
      apply analyze_single_stock_extends in A;
      assert (A' : extends (l ++ [discovering]) l1)
        by (apply (extends_trans _ _ _ (extends_app _ _) A));
      try (intros H; injection H as _ <-; exact A').
    destruct (build_analysis_prompt data) as [e|prompt];
      try (intros H; injection H as _ <-; exact A').
    destruct (analysis_call w prompt) as [e|[r1|]];
      intros H; injection H as _ <-; try exact A'.
    apply (extends_trans _ l1); [exact A'|apply extends_app]. }
  destruct (stock_body w l) as [[e|pg] l0] eqn:S; specialize (B _ _ eq_refl);
    intros H; injection H as <- <-.
  - split; [apply (extends_trans _ l0); [exact B|apply extends_app]|].
    now exists l0, e.
  - now split.
Qed.

(** ** Process configuration *)

(** The module loads exactly when both keys are set and not empty, and
    then keeps them as read; otherwise loading raises a [ValueError] that
    names the first key that is missing, [NEWSAPI_KEY] before
    [OPENAI_API_KEY]. *)
Theorem load_configuration_requires_both_keys
  (getenv : pystr -> option pystr) :
  match load_configuration getenv with
  | inr c =>
      getenv (u "NEWSAPI_KEY") = Some (config_NEWSAPI_KEY c)
      /\ getenv (u "OPENAI_API_KEY") = Some (config_OPENAI_API_KEY c)
      /\ config_NEWSAPI_KEY c <> []
      /\ config_OPENAI_API_KEY c <> []
  | inl e =>
      (unset (getenv (u "NEWSAPI_KEY")) = true
       /\ e = BuiltinError ValueError
                (u "NEWSAPI_KEY environment variable is required"))
      \/ (unset (getenv (u "NEWSAPI_KEY")) = false
          /\ unset (getenv (u "OPENAI_API_KEY")) = true
          /\ e = BuiltinError ValueError
                   (u "OPENAI_API_KEY environment variable is required"))
  end.
Proof.
  unfold load_configuration. cbv zeta.
  destruct (getenv (u "NEWSAPI_KEY")) as [[|c k]|]; cbn [unset];
    try (left; now split).
  destruct (getenv (u "OPENAI_API_KEY")) as [[|c' k']|]; cbn [unset];
    try (right; now repeat split).
  cbn. repeat split; discriminate.
Qed.

End App.

(** * Concrete runs *)

(** ** News client *)

(** The hypothesis of the amended C2 at a provider that times out. *)
Lemma get_news_headlines_timeout :
  fetch_failure timeout_world (u "NVDA") (RequestError Timeout (u "Read timed out."))
  /\ get_news_headlines timeout_world (u "NVDA") 3 []
     = (inr [],
        [LogRecord ERROR (u "Failed to fetch news for NVDA: Read timed out.")]).
Proof.
  assert (F : fetch_failure timeout_world (u "NVDA")
                (RequestError Timeout (u "Read timed out."))).
  { apply transport_failure. reflexivity. }
  split; [exact F|].
  exact (get_news_headlines_absorbs_request_failure
           timeout_world (u "NVDA") 3 _ [] F).
Defined.

(** Against C2 as stated: a 200 response whose article has no title is a
    malformed body, and the [KeyError] it causes reaches the caller. *)
Lemma get_news_headlines_raises_on_untitled_article :
  news_request untitled_world (u "NVDA")
  = inr (ok_response
           (JDict [(u "articles",
                    JList [JDict [(u "description",
                                   JAtom (PStr (u "Graphex wins contract")))]])]))
  /\ get_news_headlines untitled_world (u "NVDA") 3 []
     = (inl (BuiltinError KeyError (u "'title'")), []).
Proof. split; reflexivity. Qed.

(** What the untitled article raises is a [KeyError], no
    [RequestException]. *)
Lemma get_news_headlines_untitled_is_no_request_error :
  get_news_headlines untitled_world (u "NVDA") 3 []
  = (inl (BuiltinError KeyError (u "'title'")), [])
  /\ is_RequestException (BuiltinError KeyError (u "'title'")) = false.
Proof.
  split; [reflexivity|].
  exact (get_news_headlines_raises_no_request_error
           untitled_world (u "NVDA") 3 [] [] _ eq_refl).
Defined.

(** C8 at a provider with four articles and the default limit. *)
Lemma get_news_headlines_first_three :
  get_news_headlines four_articles_world (u "NVDA") default_max_articles []
  = (inr [JAtom (PStr (u "first")); JAtom (PStr (u "second"));
          JAtom (PStr (u "third"))], [])
  /\ Z.of_nat 3 <= default_max_articles
  /\ default_max_articles = 3.
Proof.
  refine (get_news_headlines_first_titles
            four_articles_world (u "NVDA") default_max_articles
            (ok_response (news_of ["first"; "second"; "third"; "fourth"]%string))
            _ (map article ["first"; "second"; "third"; "fourth"]%string)
            [JAtom (PStr (u "first")); JAtom (PStr (u "second"));
             JAtom (PStr (u "third"))] [] _ _ _ _ _ _);
    try reflexivity.
  unfold default_max_articles. lia.
Defined.

(** C10 at a provider that answers with an object without [articles]. *)
Lemma get_news_headlines_no_articles_key :
  lookup (u "articles") [(u "status", JAtom (PStr (u "ok")))] = None
  /\ get_news_headlines no_articles_world (u "NVDA") 3 [] = (inr [], []).
Proof.
  split; [reflexivity|].
  refine (get_news_headlines_missing_articles
            no_articles_world (u "NVDA") 3
            (ok_response (JDict [(u "status", JAtom (PStr (u "ok")))]))
            [(u "status", JAtom (PStr (u "ok")))] [] _ _ _ _).
  - reflexivity.
  - cbn. lia.
  - reflexivity.
  - left. reflexivity.
Defined.

(** ** Market data client *)

(** The amended C3 at price 100 and previous close 90: the change is the
    double written 11.11. *)
Lemma get_stock_price_data_100_90 :
  get_stock_price_data timeout_world (u "NVDA") []
  = (inr {| pd_price := PInt 100;
            pd_change_percentage := PFloat (literal 1111 (-2)) |}, [])
  /\ Float64.repr (literal 1111 (-2)) = u "11.11".
Proof.
  split; [|vm_compute; reflexivity].
  refine (proj1 (proj2 (get_stock_price_data_change
                          timeout_world (u "NVDA")
                          (quote_of (PInt 100) (PInt 90)) [] _))
            (PFloat (literal 1111 (-2))) _ _ _); reflexivity.
Defined.

(** Against C3 as stated: the price 0 is present and the previous close 90
    is not zero, the formula gives -100.0, and the change returned is
    null. *)
Lemma get_stock_price_data_zero_price :
  yf_Ticker_info zero_price_world (u "NVDA") = inr (quote_of (PInt 0) (PInt 90))
  /\ change_formula (PInt 0) (PInt 90) = inr (PFloat (literal (-1000) (-1)))
  /\ Float64.repr (literal (-1000) (-1)) = u "-100.0"
  /\ get_stock_price_data zero_price_world (u "NVDA") []
     = (inr {| pd_price := PInt 0; pd_change_percentage := PNone |}, []).
Proof. repeat split; vm_compute; reflexivity. Qed.

(** C7 at a provider that raises. *)
Lemma get_stock_price_data_provider_down :
  provider_error no_quote_world (u "NVDA")
    (LibraryError (u "YFRateLimitError") (u "Too Many Requests."))
  /\ get_stock_price_data no_quote_world (u "NVDA") []
     = (inr {| pd_price := PNone; pd_change_percentage := PNone |},
        [LogRecord ERROR
           (u "Failed to fetch stock data for NVDA: Too Many Requests.")]).
Proof.
  assert (P : provider_error no_quote_world (u "NVDA")
                (LibraryError (u "YFRateLimitError") (u "Too Many Requests."))).
  { apply provider_raises. reflexivity. }
  split; [exact P|].
  exact (proj1 (proj2 (get_stock_price_data_absorbs_errors
                         no_quote_world (u "NVDA") [])) _ P).
Defined.

(** ** Analysis prompt *)

(** Against C6 as stated: the price 0 is not null, and the prompt shows
    "N/A" for it and no "$" at all. *)
Lemma build_analysis_prompt_zero_price :
  run (analyze_single_stock zero_price_world (u "NVDA"))
  = (inr (Some {| symbol := u "NVDA"; price := PInt 0;
                  change_percentage := PNone; news := [] |}), [])
  /\ exists prompt,
      build_analysis_prompt
        {| symbol := u "NVDA"; price := PInt 0; change_percentage := PNone;
           news := [] |} = inr prompt
      /\ containsb (u "Current Price: N/A") prompt = true
      /\ containsb (u "$") prompt = false.
Proof.
  split; [vm_compute; reflexivity|].
  eexists. split; [vm_compute; reflexivity|].
  split; vm_compute; reflexivity.
Qed.

(** ** Symbol extractor *)

(** The shape of the symbol at the text of the specification. *)
Lemma extract_stock_symbol_NVDA_shape :
  extract_stock_symbol ascii_only (u "Our top pick is NVDA, a strong buy")
  = Some (u "NVDA")
  /\ contains (u "NVDA") (u "Our top pick is NVDA, a strong buy")
  /\ (2 <= List.length (u "NVDA") <= 5)%nat
  /\ forallb is_upper_latin (u "NVDA") = true.
Proof.
  split; [reflexivity|].
  exact (extract_stock_symbol_shape ascii_only
           (u "Our top pick is NVDA, a strong buy") (u "NVDA") eq_refl).
Defined.

(** C5 at the text of the specification. *)
Lemma extract_stock_symbol_NVDA_survives :
  extract_stock_symbol ascii_only (u "Our top pick is NVDA, a strong buy")
  = Some (u "NVDA")
  /\ ~ stoplisted (u "NVDA") /\ (2 <= List.length (u "NVDA"))%nat.
Proof.
  split; [reflexivity|].
  exact (proj1 (extract_stock_symbol_never_stoplisted ascii_only)
           (u "Our top pick is NVDA, a strong buy") (u "NVDA") eq_refl).
Defined.

(** ** The [/stock] route *)

(** The amended C1 at a language model that is down, and at a discovery
    text without a symbol. *)
Lemma stock_discovery_down :
  discovery_call discovery_down_world
  = inl (LibraryError (u "APIConnectionError") (u "Connection error."))
  /\ stock ascii_only discovery_down_world []
     = (inl (HTTPException 500 (u "Failed to generate stock recommendation")),
        [LogRecord INFO (u "Discovering promising stocks...");
         LogRecord ERROR (u "Failed to get AI stock discovery: Connection error.");
         LogRecord ERROR
           (u "Error generating stock recommendation: Connection error.")])
  /\ extract_stock_symbol ascii_only (u "THE AND FOR ARE") = None
  /\ stock ascii_only no_symbol_world []
     = (inl (HTTPException 500 (u "Failed to generate stock recommendation")),
        [LogRecord INFO (u "Discovering promising stocks...");
         LogRecord ERROR
           (u "Error generating stock recommendation: 500 Internal Server Error: Failed to discover any stocks")]).
Proof.
  split; [reflexivity|]. split; [|split; [reflexivity|]].
  - exact (proj1 (stock_failure_report ascii_only discovery_down_world [])
             (LibraryError (u "APIConnectionError") (u "Connection error."))
             eq_refl).
  - exact (proj1 (proj2 (stock_failure_report ascii_only no_symbol_world []))
             (u "THE AND FOR ARE") eq_refl eq_refl).
Defined.

(** Against C1 as stated: a run that fails at discovery and a run that
    fails at analysis report the same exception, so no reading of the
    report tells the stage. *)
Lemma stock_failure_has_no_stage_tag :
  ~ exists stage_of : exn -> stage, stage_tagged ascii_only stage_of.
Proof.
  intros [stage_of H].
  assert (D : stage_of (HTTPException 500 generic_description) = Discovery).
  { apply (H discovery_down_world Discovery []
             [LogRecord INFO (u "Discovering promising stocks...");
              LogRecord ERROR
                (u "Failed to get AI stock discovery: Connection error.");
              LogRecord ERROR
                (u "Error generating stock recommendation: Connection error.")]).
    - apply (fails_at_discovery ascii_only discovery_down_world
               (LibraryError (u "APIConnectionError") (u "Connection error."))).
      reflexivity.
    - vm_compute. reflexivity. }
  assert (A : stage_of (HTTPException 500 generic_description) = Analysis).
  { apply (H analysis_down_world Analysis []
             [LogRecord INFO (u "Discovering promising stocks...");
              LogRecord INFO (u "Discovered stock: NVDA");
              LogRecord ERROR
                (u "Failed to get AI recommendation: Rate limit reached.");
              LogRecord ERROR
                (u "Error generating stock recommendation: Rate limit reached.")]).
    - eapply (fails_at_analysis ascii_only analysis_down_world
                (u "Our top pick is NVDA, a strong buy") (u "NVDA") _ _ [] []).
      + reflexivity.
      + reflexivity.
      + vm_compute. reflexivity.
      + vm_compute. reflexivity.
      + reflexivity.
    - vm_compute. reflexivity. }
  rewrite D in A. discriminate.
Qed.

(** * Concrete runs of the further properties *)

(** ** Symbol extractor *)

Lemma extract_stock_symbol_NVDA_whole_word :
  extract_stock_symbol ascii_only (u "Our top pick is NVDA, a strong buy")
  = Some (u "NVDA")
  /\ exists pre post,
      u "Our top pick is NVDA, a strong buy" = pre ++ u "NVDA" ++ post
      /\ word_before ascii_only (last_char None pre) = false
      /\ word_after ascii_only post = false.
Proof.
  split; [reflexivity|].
  exact (extract_stock_symbol_whole_word ascii_only
           (u "Our top pick is NVDA, a strong buy") (u "NVDA") eq_refl).
Defined.

Lemma extract_stock_symbol_leading_GRPH :
  (2 <= List.length (u "GRPH") <= 5)%nat
  /\ extract_stock_symbol ascii_only (u "GRPH" ++ u " (Graphex Inc) beats NVDA")
     = Some (u "GRPH").
Proof.
  split; [cbn; lia|].
  apply (extract_stock_symbol_leading_word ascii_only (u "GRPH")
           (u " (Graphex Inc) beats NVDA")).
  - cbn. lia.
  - reflexivity.
  - intros H. cbn in H. decompose [or] H; discriminate || contradiction.
  - reflexivity.
Defined.

Lemma extract_stock_symbol_NVDA_again :
  extract_stock_symbol ascii_only (u "Our top pick is NVDA, a strong buy")
  = Some (u "NVDA")
  /\ extract_stock_symbol ascii_only (u "NVDA") = Some (u "NVDA").
Proof.
  split; [reflexivity|].
  exact (extract_stock_symbol_idempotent ascii_only
           (u "Our top pick is NVDA, a strong buy") (u "NVDA") eq_refl).
Defined.

(** ** News client *)

Lemma get_news_headlines_three_of_four :
  get_news_headlines four_articles_world (u "NVDA") 3 []
  = (inr [JAtom (PStr (u "first")); JAtom (PStr (u "second"));
          JAtom (PStr (u "third"))], [])
  /\ Z.of_nat 3 <= 3.
Proof.
  split; [reflexivity|].
  refine (get_news_headlines_at_most four_articles_world (u "NVDA") 3 [] []
            [JAtom (PStr (u "first")); JAtom (PStr (u "second"));
             JAtom (PStr (u "third"))] _ eq_refl).
  lia.
Defined.

Lemma get_news_headlines_all_but_last :
  get_news_headlines four_articles_world (u "NVDA") (-1) []
  = (inr [JAtom (PStr (u "first")); JAtom (PStr (u "second"));
          JAtom (PStr (u "third"))], []).
Proof.
  refine (get_news_headlines_negative_limit
            four_articles_world (u "NVDA") (-1)
            (ok_response (news_of ["first"; "second"; "third"; "fourth"]%string))
            _ (map article ["first"; "second"; "third"; "fourth"]%string)
            _ [] _ _ _ _ _ _);
    reflexivity.
Defined.

Lemma get_news_headlines_array_body :
  news_request array_body_world (u "NVDA")
  = inr (ok_response (JList [article "Graphex wins contract"]))
  /\ get_news_headlines array_body_world (u "NVDA") 3 []
     = (inl (BuiltinError AttributeError
               (u "'list' object has no attribute 'get'")), []).
Proof.
  split; [reflexivity|].
  refine (get_news_headlines_body_not_object
            array_body_world (u "NVDA") 3
            (ok_response (JList [article "Graphex wins contract"]))
            (JList [article "Graphex wins contract"]) [] _ _ _ _);
    try reflexivity.
  intros fields. discriminate.
Defined.

(** ** Market data client *)

Lemma get_stock_price_data_text_price :
  provider_error text_price_world (u "NVDA")
    (BuiltinError TypeError
       (u "unsupported operand type(s) for -: 'str' and 'int'"))
  /\ type_or_overflow
       (BuiltinError TypeError
          (u "unsupported operand type(s) for -: 'str' and 'int'")).
Proof.
  assert (P : provider_error text_price_world (u "NVDA")
                (BuiltinError TypeError
                   (u "unsupported operand type(s) for -: 'str' and 'int'"))).
  { apply (malformed_values text_price_world (u "NVDA")
             (quote_of (PStr (u "12.5")) (PInt 10))); reflexivity. }
  split; [exact P|].
  exact (proj1 (get_stock_price_data_never_divides_by_zero
                  text_price_world (u "NVDA")
                  (quote_of (PStr (u "12.5")) (PInt 10)) _ eq_refl P)).
Defined.

Lemma get_stock_price_data_flat_price :
  get_stock_price_data flat_price_world (u "NVDA") []
  = (inr {| pd_price := PFloat (literal 125 (-1));
            pd_change_percentage := PFloat (S754_zero false) |}, [])
  /\ get_stock_price_data negative_flat_world (u "NVDA") []
     = (inr {| pd_price := PInt (-1);
               pd_change_percentage := PFloat (S754_zero true) |}, [])
  /\ change_str {| symbol := u "NVDA"; price := PInt (-1);
                   change_percentage := PFloat (S754_zero true); news := [] |}
     = u "-0.0%".
Proof.
  split; [|split].
  - refine (proj1 (get_stock_price_data_unchanged
                     flat_price_world (u "NVDA")
                     (quote_of (PFloat (literal 125 (-1)))
                        (PFloat (literal 125 (-1))))
                     (PFloat (literal 125 (-1))) [] eq_refl eq_refl eq_refl _)).
    right. eexists. eexists. eexists. vm_compute. reflexivity.
  - refine (proj1 (get_stock_price_data_unchanged
                     negative_flat_world (u "NVDA")
                     (quote_of (PInt (-1)) (PInt (-1)))
                     (PInt (-1)) [] eq_refl eq_refl eq_refl _)).
    left. exists (-1). split; [lia|reflexivity].
  - refine (proj2 (get_stock_price_data_unchanged
                     negative_flat_world (u "NVDA")
                     (quote_of (PInt (-1)) (PInt (-1)))
                     (PInt (-1)) [] eq_refl eq_refl eq_refl _)
              (u "NVDA") []).
    left. exists (-1). split; [lia|reflexivity].
Defined.

(** ** Analysis prompt *)

Lemma build_analysis_prompt_second_headline :
  In (u "Graphex raises guidance")
    [u "Graphex wins contract"; u "Graphex raises guidance"]
  /\ exists prompt,
      build_analysis_prompt
        {| symbol := u "GRPH"; price := PFloat (literal 125 (-1));
           change_percentage := PFloat (literal 250 (-1));
           news := headline_items
                     [u "Graphex wins contract"; u "Graphex raises guidance"] |}
      = inr prompt
      /\ contains (u "Graphex raises guidance") prompt.
Proof.
  assert (H : In (u "Graphex raises guidance")
                [u "Graphex wins contract"; u "Graphex raises guidance"]).
  { right. left. reflexivity. }
  split; [exact H|].
  exact (build_analysis_prompt_shows_every_headline
           (u "GRPH") (PFloat (literal 125 (-1))) (PFloat (literal 250 (-1)))
           [u "Graphex wins contract"; u "Graphex raises guidance"]
           (u "Graphex raises guidance") H).
Defined.

(** ** Snapshot of one stock *)

Lemma analyze_single_stock_graphex :
  run (analyze_single_stock graphex_world (u "GRPH"))
  = (inr (Some graphex_snapshot), [])
  /\ symbol graphex_snapshot = u "GRPH"
  /\ (List.length (news graphex_snapshot) <= 3)%nat
  /\ (change_percentage graphex_snapshot = PNone
      \/ exists x, change_percentage graphex_snapshot = PFloat x)
  /\ (change_percentage graphex_snapshot <> PNone ->
      truthy (price graphex_snapshot) = true).
Proof.
  assert (R : analyze_single_stock graphex_world (u "GRPH") []
              = (inr (Some graphex_snapshot), [])) by (vm_compute; reflexivity).
  split; [exact R|].
  exact (analyze_single_stock_snapshot graphex_world (u "GRPH") [] []
           graphex_snapshot R).
Defined.

Lemma analyze_single_stock_data_down :
  yf_Ticker_info data_down_world (u "NVDA")
  = inl (LibraryError (u "YFRateLimitError") (u "Too Many Requests."))
  /\ fetch_failure data_down_world (u "NVDA")
       (RequestError ConnectionError (u "Connection refused."))
  /\ analyze_single_stock data_down_world (u "NVDA") []
     = (inr (Some {| symbol := u "NVDA"; price := PNone;
                     change_percentage := PNone; news := [] |}),
        [LogRecord ERROR
           (u "Failed to fetch stock data for NVDA: Too Many Requests.");
         LogRecord ERROR
           (u "Failed to fetch news for NVDA: Connection refused.")]).
Proof.
  assert (F : fetch_failure data_down_world (u "NVDA")
                (RequestError ConnectionError (u "Connection refused."))).
  { apply transport_failure. reflexivity. }
  split; [reflexivity|]. split; [exact F|].
  exact (proj1 (analyze_single_stock_degrades data_down_world (u "NVDA")
                  _ _ [] eq_refl F)).
Defined.

(** ** The [/stock] route *)

Lemma stock_untitled_news_fails :
  news_raises untitled_world (u "NVDA") (BuiltinError KeyError (u "'title'"))
  /\ exists l',
      stock ascii_only untitled_world []
      = (inl (HTTPException 500 generic_description), l')
      /\ In (LogRecord ERROR (u "Failed to analyze stock NVDA: 'title'")) l'.
Proof.
  assert (N : news_raises untitled_world (u "NVDA")
                (BuiltinError KeyError (u "'title'"))).
  { split; reflexivity. }
  split; [exact N|].
  exact (stock_fails_when_news_raises ascii_only untitled_world []
           (u "Our top pick is NVDA, a strong buy") (u "NVDA") _
           eq_refl eq_refl N).
Defined.

(** The end-to-end example succeeds; with the template missing, the same
    providers give the generic failure. *)
Lemma stock_graphex_succeeds :
  stock ascii_only graphex_world []
  = (inr {| template := u "stock.html";
            ai_pick := full_analysis (u "...GRPH (Graphex Inc)...")
                         (u "Strong buy.") |},
     [discovering; discovered (u "GRPH")])
  /\ stock ascii_only missing_template_world []
     = (inl (HTTPException 500 generic_description),
        [discovering; discovered (u "GRPH");
         LogRecord ERROR
           (u "Error generating stock recommendation: stock.html")])
  /\ ~ (exists pg l', stock ascii_only missing_template_world [] = (inr pg, l')).
Proof.
  split; [|split].
  - apply (proj2 (stock_succeeds_iff ascii_only graphex_world []
                    [discovering; discovered (u "GRPH")] _)).
    exists (u "...GRPH (Graphex Inc)..."), (u "GRPH"), graphex_snapshot.
    eexists. exists (u "Strong buy.").
    repeat split; vm_compute; reflexivity.
  - vm_compute. reflexivity.
  - intros (pg & l' & H).
    apply (proj1 (stock_succeeds_iff ascii_only missing_template_world []
                    l' pg)) in H.
    destruct H as (d & sym & data & prompt & r & D & _ & _ & _ & _ & T & _).
    discriminate T.
Defined.

Lemma stock_discovery_down_log :
  stock ascii_only discovery_down_world [LogRecord INFO (u "started")]
  = (inl (HTTPException 500 generic_description),
     [LogRecord INFO (u "started");
      LogRecord INFO (u "Discovering promising stocks...");
      LogRecord ERROR (u "Failed to get AI stock discovery: Connection error.");
      LogRecord ERROR
        (u "Error generating stock recommendation: Connection error.")])
  /\ extends
       [LogRecord INFO (u "started");
        LogRecord INFO (u "Discovering promising stocks...")]
       [LogRecord INFO (u "started");
        LogRecord INFO (u "Discovering promising stocks...");
        LogRecord ERROR (u "Failed to get AI stock discovery: Connection error.");
        LogRecord ERROR
          (u "Error generating stock recommendation: Connection error.")].
Proof.
  assert (R : stock ascii_only discovery_down_world [LogRecord INFO (u "started")]
              = (inl (HTTPException 500 generic_description),
                 [LogRecord INFO (u "started");
                  LogRecord INFO (u "Discovering promising stocks...");
                  LogRecord ERROR
                    (u "Failed to get AI stock discovery: Connection error.");
                  LogRecord ERROR
                    (u "Error generating stock recommendation: Connection error.")]))
    by (vm_compute; reflexivity).
  split; [exact R|].
  exact (proj1 (stock_log_grows ascii_only discovery_down_world _ _ _ R)).
Defined.
